(** * PhishGuard: the reinforcement-learning response agent

    A shallow embedding of
    [Agents/agents/intelligence/reinforcement_learning_agent.py]
    (class [ReinforcementLearningAgent]) together with the parts of
    [Agents/common/models/base_agent.py], [Agents/common/utils/database.py]
    and [Agents/common/utils/message_queue.py] it calls.

    Python floats are IEEE binary64 numbers and are modelled by Rocq's
    primitive floats, Python ints by [Z], dictionaries with string keys by
    association lists in insertion order.  Exceptions are explicit: a
    computation that may raise returns a [res].  The methods of the agent
    that read or write [self] live in a state-and-exception monad over the
    record [Agent]. *)

From Stdlib Require Import ZArith List String Bool Lia.
From Stdlib Require Import Floats.
Import ListNotations.

Set Warnings "-inexact-float,-register-all".
Local Open Scope string_scope.
Local Open Scope list_scope.
Local Open Scope Z_scope.

(* ================================================================= *)
(** ** Python values and exceptions *)

(** An exception: the name of its class and [str(e)]. *)
Inductive exn : Type :=
  Exn (kind msg : string).

Definition exn_str (e : exn) : string :=
  match e with Exn _ msg => msg end.

Inductive res (A : Type) : Type :=
| Ok (a : A)
| Raise (e : exn).
Arguments Ok {A} a.
Arguments Raise {A} e.

Definition res_bind {A B} (m : res A) (k : A -> res B) : res B :=
  match m with
  | Ok a => k a
  | Raise e => Raise e
  end.

Declare Scope res_scope.
Delimit Scope res_scope with res.
Notation "x <- m ;; k" := (res_bind m (fun x => k))
  (at level 61, m at next level, right associativity) : res_scope.

Definition is_ok {A} (m : res A) : bool :=
  match m with Ok _ => true | Raise _ => false end.

(** The values that travel in the payloads (JSON-like data).  A dictionary
    lists its items in insertion order, each key once; [assoc] below reads
    the first binding of a key. *)
Inductive value : Type :=
| VNone
| VBool (b : bool)
| VInt (z : Z)
| VFloat (f : float)
| VStr (s : string)
| VList (l : list value)
| VDict (d : list (string * value)).

Definition AttributeError (what : string) : exn :=
  Exn "AttributeError" what.
Definition TypeError (what : string) : exn :=
  Exn "TypeError" what.
Definition KeyError (what : string) : exn :=
  Exn "KeyError" what.
Definition OverflowError (what : string) : exn :=
  Exn "OverflowError" what.

Fixpoint assoc {A} (k : string) (d : list (string * A)) : option A :=
  match d with
  | [] => None
  | (k', v) :: d' => if String.eqb k k' then Some v else assoc k d'
  end.

(** [d.get(k, default)]: only a dict has the method. *)
Definition py_get (d : value) (k : string) (default : value) : res value :=
  match d with
  | VDict items =>
      match assoc k items with
      | Some v => Ok v
      | None => Ok default
      end
  | _ => Raise (AttributeError "object has no attribute 'get'")
  end.

(** [d[k]] *)
Definition py_getitem (d : value) (k : string) : res value :=
  match d with
  | VDict items =>
      match assoc k items with
      | Some v => Ok v
      | None => Raise (KeyError k)
      end
  | _ => Raise (TypeError "object is not subscriptable")
  end.

(** [len(v)] *)
Definition py_len (v : value) : res Z :=
  match v with
  | VStr s => Ok (Z.of_nat (String.length s))
  | VList l => Ok (Z.of_nat (List.length l))
  | VDict d => Ok (Z.of_nat (List.length (nodup string_dec (map fst d))))
  | _ => Raise (TypeError "object has no len()")
  end.

(** Truth value of an object, as [if v] tests it. *)
Definition py_truthy (v : value) : bool :=
  match v with
  | VNone => false
  | VBool b => b
  | VInt z => negb (z =? 0)
  | VFloat f => negb (PrimFloat.eqb f 0%float)
  | VStr s => negb (String.eqb s "")
  | VList l => match l with [] => false | _ => true end
  | VDict d => match d with [] => false | _ => true end
  end.

(** [v == 'literal'] *)
Definition py_eq_str (v : value) (s : string) : bool :=
  match v with
  | VStr t => String.eqb t s
  | _ => false
  end.

(** An int as the exact value of a (not normalised) binary float. *)
Definition Z2SF (z : Z) : spec_float :=
  match z with
  | Z0 => S754_zero false
  | Zpos p => S754_finite false p 0
  | Zneg p => S754_finite true p 0
  end.

(** [float(z)]: the nearest binary64 number (infinite when out of range). *)
Definition float_of_Z (z : Z) : float :=
  SF2Prim (binary_normalize prec emax z 0 false).

(** [a / b] on ints, [b] not zero: the correctly rounded quotient; Python
    raises OverflowError when it is too large for a float. *)
Definition int_truediv (a b : Z) : res float :=
  let q := SF2Prim (SFdiv prec emax (Z2SF a) (Z2SF b)) in
  if is_infinity q
  then Raise (OverflowError "integer division result too large for a float")
  else Ok q.

(** [v / n] for an int literal [n] other than zero. *)
Definition py_truediv (v : value) (n : Z) : res value :=
  match v with
  | VInt z => (q <- int_truediv z n ;; Ok (VFloat q))%res
  | VBool b => (q <- int_truediv (if b then 1 else 0) n ;; Ok (VFloat q))%res
  | VFloat f => Ok (VFloat (f / float_of_Z n)%float)
  | _ => Raise (TypeError "unsupported operand type(s) for /")
  end.

(** [v > n] for a small int literal [n]. *)
Definition py_gt (v : value) (n : Z) : res bool :=
  match v with
  | VInt z => Ok (n <? z)
  | VBool b => Ok (n <? (if b then 1 else 0))
  | VFloat f => Ok (PrimFloat.ltb (float_of_Z n) f)
  | _ => Raise (TypeError "'>' not supported between instances")
  end.

(** [max(a, b)] on floats: the first argument unless the second is greater. *)
Definition py_max (a b : float) : float :=
  if PrimFloat.ltb a b then b else a.

(* ================================================================= *)
(** ** Hyper-parameters set by [__init__] *)

Definition state_size : Z := 20.
Definition action_size : Z := 5.
Definition memory_size : Z := 10000.
Definition batch_size : Z := 64.
Definition gamma : float := 0.99%float.
Definition epsilon_init : float := 1.0%float.
Definition epsilon_min : float := 0.01%float.
Definition epsilon_decay : float := 0.995%float.
Definition learning_rate : float := 0.001%float.
Definition update_frequency : Z := 100.
Definition min_experiences : Z := 1000.

(** [self.actions] *)
Definition actions : list (Z * string) :=
  [ (0, "block_sender");
    (1, "quarantine_message");
    (2, "notify_user");
    (3, "monitor_sender");
    (4, "no_action") ].

Fixpoint assocZ {A} (k : Z) (d : list (Z * A)) : option A :=
  match d with
  | [] => None
  | (k', v) :: d' => if k =? k' then Some v else assocZ k d'
  end.

(** [self.actions[action_idx]] *)
Definition actions_getitem (action_idx : Z) : res string :=
  match assocZ action_idx actions with
  | Some a => Ok a
  | None => Raise (KeyError "action_idx")
  end.

(* ================================================================= *)
(** ** [_extract_state] *)

(** A log record of [self.logger]. *)
Inductive log_record : Type :=
| LogInfo (msg : string)
| LogError (msg : string).

(** [len(d.get(k, [])) / n] *)
Definition len_over (d : value) (k : string) (n : Z) : res value :=
  (v <- py_get d k (VList []) ;;
   l <- py_len v ;;
   py_truediv (VInt l) n)%res.

(** [1.0 if d.get(k) else 0.0] *)
Definition flag (d : value) (k : string) : res value :=
  (v <- py_get d k VNone ;;
   Ok (VFloat (if py_truthy v then 1.0 else 0.0)%float))%res.

Definition VZero : value := VFloat 0.0%float.

(** Email features (6 features) *)
Definition email_features (data : value) : res (list value) :=
  (email_analysis <- py_get data "email_analysis" (VDict []) ;;
   x0 <- len_over email_analysis "suspicious_indicators" 10 ;;
   x1 <- py_get email_analysis "authentication_score" VZero ;;
   x2 <- py_get email_analysis "similarity_score" VZero ;;
   x3 <- py_get email_analysis "urgency_score" VZero ;;
   x4 <- len_over email_analysis "attachments" 5 ;;
   x5 <- len_over email_analysis "links" 10 ;;
   Ok [x0; x1; x2; x3; x4; x5])%res.

(** Domain features (4 features) *)
Definition domain_features (data : value) : res (list value) :=
  (domain_analysis <- py_get data "domain_analysis" (VDict []) ;;
   x0 <- py_get domain_analysis "age_score" VZero ;;
   x1 <- py_get domain_analysis "reputation_score" VZero ;;
   x2 <- py_get domain_analysis "similarity_score" VZero ;;
   x3 <- flag domain_analysis "is_suspicious" ;;
   Ok [x0; x1; x2; x3])%res.

(** Threat intelligence features (4 features) *)
Definition threat_features (data : value) : res (list value) :=
  (threat_intel <- py_get data "threat_intelligence" (VDict []) ;;
   x0 <- py_get threat_intel "risk_score" VZero ;;
   x1 <- len_over threat_intel "matches" 10 ;;
   x2 <- len_over threat_intel "campaigns" 5 ;;
   x3 <- py_get threat_intel "confidence" VZero ;;
   Ok [x0; x1; x2; x3])%res.

(** Historical features (4 features) *)
Definition history_features (data : value) : res (list value) :=
  (history <- py_get data "historical_data" (VDict []) ;;
   p <- py_get history "previous_incidents" (VInt 0) ;;
   x0 <- py_truediv p 10 ;;
   x1 <- py_get history "success_rate" VZero ;;
   x2 <- py_get history "false_positive_rate" VZero ;;
   t <- py_get history "average_response_time" (VInt 0) ;;
   x3 <- py_truediv t 3600 ;;
   Ok [x0; x1; x2; x3])%res.

(** User context features (2 features) *)
Definition user_features (data : value) : res (list value) :=
  (user_context <- py_get data "user_context" (VDict []) ;;
   x0 <- py_get user_context "risk_level" VZero ;;
   x1 <- flag user_context "is_targeted" ;;
   Ok [x0; x1])%res.

(** The body of the [try]: the five [state.extend] calls in order. *)
Definition extract_features (data : value) : res (list value) :=
  (b1 <- email_features data ;;
   b2 <- domain_features data ;;
   b3 <- threat_features data ;;
   b4 <- history_features data ;;
   b5 <- user_features data ;;
   Ok (b1 ++ b2 ++ b3 ++ b4 ++ b5))%res.

(** [[0.0] * n] *)
Definition zeros (n : Z) : list value :=
  repeat VZero (Z.to_nat n).

(** "Ensure state vector has correct size". *)
Definition fit_state (state : list value) : list value :=
  let len := Z.of_nat (List.length state) in
  if len <? state_size then state ++ zeros (state_size - len)
  else if state_size <? len then firstn (Z.to_nat state_size) state
  else state.

(** [_extract_state(data)]: the state vector and the records it logs. *)
Definition _extract_state (data : value) : list value * list log_record :=
  match extract_features data with
  | Ok state => (fit_state state, [])
  | Raise e =>
      (zeros state_size, [LogError ("Error extracting state: " ++ exn_str e)%string])
  end.

(* ================================================================= *)
(** ** [_calculate_reward] *)

(** The body of the [try]. *)
Definition reward_terms (result : value) : res float :=
  (let reward := 0.0%float in
   s1 <- py_get result "status" VNone ;;
   reward <-
     (if py_eq_str s1 "success" then Ok (reward + 1.0)%float
      else
        s2 <- py_get result "status" VNone ;;
        if py_eq_str s2 "failed" then Ok (reward - 1.0)%float
        else Ok reward) ;;
   pa <- py_get result "prevented_attack" VNone ;;
   let reward := if py_truthy pa then (reward + 2.0)%float else reward in
   fp <- py_get result "false_positive" VNone ;;
   let reward := if py_truthy fp then (reward - 2.0)%float else reward in
   u1 <- py_get result "user_feedback" VNone ;;
   reward <-
     (if py_eq_str u1 "positive" then Ok (reward + 0.5)%float
      else
        u2 <- py_get result "user_feedback" VNone ;;
        if py_eq_str u2 "negative" then Ok (reward - 0.5)%float
        else Ok reward) ;;
   processing_time <- py_get result "processing_time" (VInt 0) ;;
   late <- py_gt processing_time 60 ;;
   let reward := if late then (reward - 0.1)%float else reward in
   Ok reward)%res.

(** [_calculate_reward(result)]: the reward and the records it logs. *)
Definition _calculate_reward (result : value) : float * list log_record :=
  match reward_terms result with
  | Ok reward => (reward, [])
  | Raise e => (0.0%float, [LogError ("Error calculating reward: " ++ exn_str e)%string])
  end.

(* ================================================================= *)
(** ** Replay memory: [collections.deque(maxlen=...)] *)

(** [d.append(x)] on a deque bounded by [maxlen]: a full deque drops its
    leftmost item; a deque of [maxlen] 0 stays empty. *)
Definition deque_append {A} (maxlen : Z) (d : list A) (x : A) : list A :=
  if maxlen =? 0 then d
  else if Z.of_nat (List.length d) <? maxlen then d ++ [x]
  else tl d ++ [x].

(** [Experience = namedtuple('Experience', ['state', 'action', 'reward',
    'next_state'])] *)
Record Experience : Type := mkExperience {
  exp_state : list value;
  exp_action : Z;
  exp_reward : float;
  exp_next_state : list value
}.

(* ================================================================= *)
(** ** Tensors *)

(** One entry of a [torch.FloatTensor(...)] built from Python objects: a
    number is accepted, anything else is refused.  (The narrowing of the
    number to single precision is left to the network functions below.) *)
Definition tensor_entry (v : value) : res float :=
  match v with
  | VFloat f => Ok f
  | VInt z =>
      let f := float_of_Z z in
      if is_infinity f then Raise (OverflowError "int too large to convert to float")
      else Ok f
  | VBool b => Ok (if b then 1.0 else 0.0)%float
  | _ => Raise (TypeError "must be real number")
  end.

Fixpoint res_map {A B} (f : A -> res B) (l : list A) : res (list B) :=
  match l with
  | [] => Ok []
  | x :: l' => (y <- f x ;; ys <- res_map f l' ;; Ok (y :: ys))%res
  end.

(** [torch.FloatTensor(state)] for a flat list. *)
Definition FloatTensor (state : list value) : res (list float) :=
  res_map tensor_entry state.

(** [torch.FloatTensor([...])] for a list of state vectors. *)
Definition FloatTensor2 (states : list (list value)) : res (list (list float)) :=
  res_map FloatTensor states.

(** The reduction loop of [torch.max]: the running maximum [best] found at
    index [bi]; [i] is the index of the head of [l].  A later entry replaces
    the maximum only when it is not [<=] to it, so the first maximal entry
    wins; a NaN, once taken, ends the loop. *)
Fixpoint max_from (best : float) (bi i : nat) (l : list float) : float * nat :=
  match l with
  | [] => (best, bi)
  | v :: l' =>
      if is_nan best then (best, bi)
      else if negb (PrimFloat.leb v best) then max_from v i (S i) l'
      else max_from best bi (S i) l'
  end.

(** [t.max(1)] on a row: [(value, index)]. *)
Definition torch_max (row : list float) : float * nat :=
  match row with
  | [] => (nan, 0%nat)
  | v :: l => max_from v 0 1 l
  end.

(** [t.max(1)] on a row of a tensor: [(value, index)]; an empty row is
    refused. *)
Definition torch_max_dim (row : list float) : res (float * nat) :=
  match row with
  | [] => Raise (Exn "RuntimeError" "max(): expected reduction dim to have non-zero size")
  | _ => Ok (torch_max row)
  end.

(* ================================================================= *)
(** ** The world outside the agent *)

(** What one call of [process] (or of [initialize] / [cleanup]) draws from
    the random generator, the clock, the message queue and the HTTP
    service behind the database. *)
Record Env : Type := mkEnv {
  (** [random.random()], a float in the range 0.0 <= x < 1.0 *)
  random_random : float;
  (** [random.randrange(self.action_size)] *)
  random_randrange : Z;
  (** [random.sample(self.memory, self.batch_size)] *)
  random_sample : list Experience -> Z -> list Experience;
  (** [datetime.utcnow().isoformat()] *)
  utcnow : string;
  (** [await mq.publish(channel, message)] *)
  mq_publish : string -> res unit;
  (** what a method of [db], once running, returns or raises *)
  db_outcome : string -> res value
}.

(** The methods that class [Database] of database.py defines. *)
Definition Database_methods : list string :=
  [ "insert_phishing_incident";
    "update_analysis_result";
    "get_analysis_result";
    "cleanup" ].

(** [await db.<name>(...)]: the attribute is looked up first, which raises
    AttributeError for a name the class does not define. *)
Definition db_call (env : Env) (name : string) : res value :=
  if existsb (String.eqb name) Database_methods
  then db_outcome env name
  else Raise (AttributeError
                ("'Database' object has no attribute '" ++ name ++ "'")%string).

(** The [metrics] of a response. *)
Record Metrics : Type := mkMetrics {
  m_epsilon : float;
  m_memory_size : Z;
  m_total_steps : Z;
  m_total_episodes : Z
}.

(** The dictionary [process] returns. *)
Record Response : Type := mkResponse {
  r_incident_id : value;
  r_timestamp : string;
  r_action_taken : string;
  r_confidence : float;
  r_reward : float;
  r_metrics : Metrics
}.

(* ================================================================= *)
(** ** The agent *)

Section Engine.

(** The parameters of a [DQN] ([state_dict()]) and the state of the Adam
    optimizer. *)
Context {Params Optim : Type}.

Record Agent : Type := mkAgent {
  policy_net : Params;
  target_net : Params;
  optimizer : Optim;
  memory : list Experience;
  epsilon : float;
  steps : Z;
  episodes : Z;
  logger : list log_record
}.

Definition set_policy_net (a : Agent) (p : Params) : Agent :=
  mkAgent p (target_net a) (optimizer a) (memory a) (epsilon a) (steps a)
          (episodes a) (logger a).
Definition set_target_net (a : Agent) (p : Params) : Agent :=
  mkAgent (policy_net a) p (optimizer a) (memory a) (epsilon a) (steps a)
          (episodes a) (logger a).
Definition set_optimizer (a : Agent) (o : Optim) : Agent :=
  mkAgent (policy_net a) (target_net a) o (memory a) (epsilon a) (steps a)
          (episodes a) (logger a).
Definition set_memory (a : Agent) (m : list Experience) : Agent :=
  mkAgent (policy_net a) (target_net a) (optimizer a) m (epsilon a) (steps a)
          (episodes a) (logger a).
Definition set_epsilon (a : Agent) (e : float) : Agent :=
  mkAgent (policy_net a) (target_net a) (optimizer a) (memory a) e (steps a)
          (episodes a) (logger a).
Definition set_steps (a : Agent) (n : Z) : Agent :=
  mkAgent (policy_net a) (target_net a) (optimizer a) (memory a) (epsilon a) n
          (episodes a) (logger a).
Definition set_episodes (a : Agent) (n : Z) : Agent :=
  mkAgent (policy_net a) (target_net a) (optimizer a) (memory a) (epsilon a)
          (steps a) n (logger a).
Definition set_logger (a : Agent) (l : list log_record) : Agent :=
  mkAgent (policy_net a) (target_net a) (optimizer a) (memory a) (epsilon a)
          (steps a) (episodes a) l.

(** [__init__]: [p0] are the freshly initialised parameters of
    [policy_net], which [target_net] copies; [o0] is the new optimizer. *)
Definition new_agent (p0 : Params) (o0 : Optim) : Agent :=
  mkAgent p0 p0 o0 [] epsilon_init 0 0 [].

(** *** Methods: state of [self] plus exceptions *)

Definition M (A : Type) : Type := Agent -> res A * Agent.

Definition ret {A} (x : A) : M A := fun a => (Ok x, a).

Definition bind {A B} (m : M A) (k : A -> M B) : M B :=
  fun a =>
    match m a with
    | (Ok x, a') => k x a'
    | (Raise e, a') => (Raise e, a')
    end.

Definition raise {A} (e : exn) : M A := fun a => (Raise e, a).

Definition lift {A} (r : res A) : M A := fun a => (r, a).

Definition get : M Agent := fun a => (Ok a, a).

Definition modify (f : Agent -> Agent) : M unit := fun a => (Ok tt, f a).

(** [try: m  except Exception as e: h e] *)
Definition try_except {A} (m : M A) (h : exn -> M A) : M A :=
  fun a =>
    match m a with
    | (Ok x, a') => (Ok x, a')
    | (Raise e, a') => h e a'
    end.

(** [self.logger.info(...)] / [self.logger.error(...)] *)
Definition log (r : log_record) : M unit :=
  modify (fun a => set_logger a (logger a ++ [r])).

(** A call of one of the two methods above that only log. *)
Definition logged {A} (p : A * list log_record) : M A :=
  fun a => (Ok (fst p), set_logger a (logger a ++ snd p)).

End Engine.

Arguments Agent : clear implicits.
Arguments M : clear implicits.

Declare Scope agent_scope.
Delimit Scope agent_scope with agent.
Notation "x <- m ;; k" := (bind m (fun x => k))
  (at level 61, m at next level, right associativity) : agent_scope.

Section Methods.

Context {Params Optim : Type}.

(** [net(x)]: the row of action values [DQN.forward] computes for one
    state under the given parameters. *)
Context (forward : Params -> list float -> list float).

(** The tensor part of [_train]: the forward passes of both networks on
    the batch, the loss, [loss.backward()] and [optimizer.step()].  Takes
    the policy parameters, the target parameters, the optimizer, and the
    batch as [states], [actions], [rewards], [next_states]. *)
Context (learn : Params -> Params -> Optim ->
                 list (list float) -> list Z -> list float ->
                 list (list float) -> res (Params * Optim)).

(** [torch.load(v)] followed by [load_state_dict]. *)
Context (torch_load : value -> res Params).
Context (torch_load_optim : value -> res Optim).

Local Abbreviation Agent := (Agent Params Optim).
Local Abbreviation M := (M Params Optim).
Local Open Scope agent_scope.

(** [BaseAgent.handle_error] *)
Definition handle_error (error : exn) : M unit :=
  _ <- log (LogError ("Error in reinforcement_learning: " ++ exn_str error)%string) ;;
  log (LogError "traceback.format_exc()").

(** [_select_action(state)] *)
Definition _select_action (env : Env) (state : list float) : M Z :=
  a <- get ;;
  if PrimFloat.ltb (epsilon a) (random_random env)
  then
    m <- lift (torch_max_dim (forward (policy_net a) state)) ;;
    ret (Z.of_nat (snd m))
  else ret (random_randrange env).

(** [_wait_for_action_result(incident_id)] *)
Definition _wait_for_action_result (env : Env) (incident_id : value) : M value :=
  lift (db_call env "get_latest_action_result").

(** [_execute_action(action, data)] *)
Definition _execute_action (env : Env) (action : string) (data : value)
  : M value :=
  try_except
    (incident_id <- lift (py_get data "incident_id" VNone) ;;
     _ <- lift
            (if String.eqb action "block_sender" then mq_publish env "auto_response"
             else if String.eqb action "quarantine_message" then mq_publish env "auto_response"
             else if String.eqb action "notify_user" then mq_publish env "alert"
             else if String.eqb action "monitor_sender" then mq_publish env "auto_response"
             else Ok tt) ;;
     result <- _wait_for_action_result env incident_id ;;
     ret result)
    (fun e =>
       _ <- log (LogError ("Error executing action: " ++ exn_str e)%string) ;;
       ret (VDict [("status", VStr "failed"); ("error", VStr (exn_str e))])).

(** The tensor part of a training step: the sampled batch as tensors,
    then the update of [policy_net] and of the optimizer. *)
Definition train_batch (env : Env) (a : Agent) : res (Params * Optim) :=
  (let batch := random_sample env (memory a) batch_size in
   states <- FloatTensor2 (map exp_state batch) ;;
   let actions := map exp_action batch in
   let rewards := map exp_reward batch in
   next_states <- FloatTensor2 (map exp_next_state batch) ;;
   learn (policy_net a) (target_net a) (optimizer a)
         states actions rewards next_states)%res.

(** [_train()] *)
Definition _train (env : Env) : M unit :=
  try_except
    (a <- get ;;
     if Z.of_nat (List.length (memory a)) <? batch_size then ret tt
     else
       po <- lift (train_batch env a) ;;
       _ <- modify (fun a => set_optimizer (set_policy_net a (fst po)) (snd po)) ;;
       modify (fun a =>
                 set_epsilon a (py_max epsilon_min (epsilon a * epsilon_decay)%float)))
    (fun e => log (LogError ("Error training network: " ++ exn_str e)%string)).

(** A checkpoint field read back into an attribute of [self].  The record
    [Agent] types its fields: a checkpoint that holds another kind of value
    there is refused here, where Python would store it as it is. *)
Definition as_float (v : value) : res float :=
  match v with
  | VFloat f => Ok f
  | _ => Raise (TypeError "epsilon is not a float")
  end.
Definition as_int (v : value) : res Z :=
  match v with
  | VInt z => Ok z
  | _ => Raise (TypeError "counter is not an int")
  end.

(** [_load_model_state()] *)
Definition _load_model_state (env : Env) : M unit :=
  try_except
    (model_state <- lift (db_call env "get_model_state") ;;
     if py_truthy model_state then
       pv <- lift (py_getitem model_state "policy_net") ;;
       p <- lift (torch_load pv) ;;
       _ <- modify (fun a => set_policy_net a p) ;;
       tv <- lift (py_getitem model_state "target_net") ;;
       t <- lift (torch_load tv) ;;
       _ <- modify (fun a => set_target_net a t) ;;
       ov <- lift (py_getitem model_state "optimizer") ;;
       o <- lift (torch_load_optim ov) ;;
       _ <- modify (fun a => set_optimizer a o) ;;
       a <- get ;;
       ev <- lift (py_get model_state "epsilon" (VFloat (epsilon a))) ;;
       e <- lift (as_float ev) ;;
       _ <- modify (fun a => set_epsilon a e) ;;
       sv <- lift (py_get model_state "steps" (VInt 0)) ;;
       s <- lift (as_int sv) ;;
       _ <- modify (fun a => set_steps a s) ;;
       pv <- lift (py_get model_state "episodes" (VInt 0)) ;;
       n <- lift (as_int pv) ;;
       _ <- modify (fun a => set_episodes a n) ;;
       log (LogInfo "Loaded saved model state")
     else ret tt)
    (fun e => log (LogError ("Error loading model state: " ++ exn_str e)%string)).

(** [_save_model_state()]: the dictionary of the seven fields is built
    from [self] and handed to [db.save_model_state]. *)
Definition _save_model_state (env : Env) : M unit :=
  try_except
    (_ <- lift (db_call env "save_model_state") ;;
     ret tt)
    (fun e => log (LogError ("Error saving model state: " ++ exn_str e)%string)).

(** [initialize()] *)
Definition initialize (env : Env) : M unit :=
  _ <- log (LogInfo "Initializing Reinforcement Learning Agent") ;;
  _load_model_state env.

(** [cleanup()] *)
Definition cleanup (env : Env) : M unit :=
  _ <- log (LogInfo "Cleaning up Reinforcement Learning Agent") ;;
  _save_model_state env.

(** [_notify_agents(incident_id, results)] *)
Definition _notify_agents (env : Env) (incident_id : value) (results : Response)
  : M unit :=
  try_except
    (_ <- lift (mq_publish env "score_aggregation") ;;
     _ <- lift (mq_publish env "logging") ;;
     ret tt)
    (fun e => log (LogError ("Error notifying agents: " ++ exn_str e)%string)).

(** The part of [process] inside its [try]. *)
Definition process_body (env : Env) (data : value) : M Response :=
  incident_id <- lift (py_get data "incident_id" VNone) ;;
  current_state <- logged (_extract_state data) ;;
  state_tensor <- lift (FloatTensor current_state) ;;
  action_idx <- _select_action env state_tensor ;;
  action <- lift (actions_getitem action_idx) ;;
  result <- _execute_action env action data ;;
  reward <- logged (_calculate_reward result) ;;
  next_state <- logged (_extract_state result) ;;
  _ <- modify (fun a =>
                 set_memory a
                   (deque_append memory_size (memory a)
                      (mkExperience current_state action_idx reward next_state))) ;;
  a <- get ;;
  _ <- (if min_experiences <=? Z.of_nat (List.length (memory a))
        then _train env else ret tt) ;;
  _ <- modify (fun a => set_steps a (steps a + 1)) ;;
  a <- get ;;
  _ <- (if steps a mod update_frequency =? 0
        then modify (fun a => set_target_net a (policy_net a))
        else ret tt) ;;
  a <- get ;;
  confidence <- lift (torch_max_dim (forward (policy_net a) state_tensor)) ;;
  let response :=
    mkResponse incident_id (utcnow env) action (fst confidence) reward
      (mkMetrics (epsilon a) (Z.of_nat (List.length (memory a)))
                 (steps a) (episodes a)) in
  _ <- lift (db_call env "update_analysis_result") ;;
  _ <- _notify_agents env incident_id response ;;
  ret response.

(** [process(data)] *)
Definition process (env : Env) (data : value) : M Response :=
  try_except (process_body env data)
    (fun e => _ <- handle_error e ;; raise e).

End Methods.

(* ================================================================= *)
(** ** Reference definitions, in the words of the specification *)

(** [xs] pushed one after the other into an empty memory of capacity [C]. *)
Definition pushes {A} (C : Z) (xs : list A) : list A :=
  fold_left (deque_append C) xs [].

(** Per-block isolation (specification 4.1): a block whose extraction
    fails is zero-filled, the other blocks are kept. *)
Definition block_or_zeros (n : Z) (b : res (list value)) : list value :=
  match b with
  | Ok l => l
  | Raise _ => zeros n
  end.

Definition encode_isolated (data : value) : list value :=
  fit_state
    (block_or_zeros 6 (email_features data)
     ++ block_or_zeros 4 (domain_features data)
     ++ block_or_zeros 4 (threat_features data)
     ++ block_or_zeros 4 (history_features data)
     ++ block_or_zeros 2 (user_features data)).

(** The reward table (specification 4.4).  An outcome record is a
    dictionary; [status] and [user_feedback] are strings, [prevented_attack]
    and [false_positive] booleans, [processing_time] a number of seconds. *)
Definition field_str (o : list (string * value)) (k s : string) : bool :=
  match assoc k o with
  | Some (VStr t) => String.eqb t s
  | _ => false
  end.

Definition field_true (o : list (string * value)) (k : string) : bool :=
  match assoc k o with
  | Some (VBool true) => true
  | _ => false
  end.

Definition field_exceeds (o : list (string * value)) (k : string) (n : Z) : bool :=
  match assoc k o with
  | Some (VInt z) => n <? z
  | Some (VFloat f) => PrimFloat.ltb (float_of_Z n) f
  | _ => false
  end.

Definition term (applies : bool) (contribution : float) : list float :=
  if applies then [contribution] else [].

Definition applicable_terms (o : list (string * value)) : list float :=
  term (field_str o "status" "success") 1.0%float
  ++ term (field_str o "status" "failed") (-1.0)%float
  ++ term (field_true o "prevented_attack") 2.0%float
  ++ term (field_true o "false_positive") (-2.0)%float
  ++ term (field_str o "user_feedback" "positive") 0.5%float
  ++ term (field_str o "user_feedback" "negative") (-0.5)%float
  ++ term (field_exceeds o "processing_time" 60) (-0.1)%float.

Definition reward_spec (o : list (string * value)) : float :=
  fold_left PrimFloat.add (applicable_terms o) 0.0%float.

(** The flags of an outcome record are booleans (or absent, or None) and
    its processing time is a number (or absent). *)
Definition flag_typed (o : list (string * value)) (k : string) : bool :=
  match assoc k o with
  | None | Some VNone | Some (VBool _) => true
  | _ => false
  end.

Definition number_typed (o : list (string * value)) (k : string) : bool :=
  match assoc k o with
  | None | Some (VInt _) | Some (VFloat _) => true
  | _ => false
  end.

Definition outcome_typed (o : list (string * value)) : bool :=
  flag_typed o "prevented_attack"
  && flag_typed o "false_positive"
  && number_typed o "processing_time".

(** What the code tests on a flag: the truth value of whatever the record
    holds under the key (a non-empty string and a number other than zero
    count as true). *)
Definition field_truthy (o : list (string * value)) (k : string) : bool :=
  match assoc k o with
  | Some v => py_truthy v
  | None => false
  end.

(** The terms of the table, the two flags read as the code reads them. *)
Definition truthy_terms (o : list (string * value)) : list float :=
  term (field_str o "status" "success") 1.0%float
  ++ term (field_str o "status" "failed") (-1.0)%float
  ++ term (field_truthy o "prevented_attack") 2.0%float
  ++ term (field_truthy o "false_positive") (-2.0)%float
  ++ term (field_str o "user_feedback" "positive") 0.5%float
  ++ term (field_str o "user_feedback" "negative") (-0.5)%float
  ++ term (field_exceeds o "processing_time" 60) (-0.1)%float.

(** A processing time that [>] cannot compare with 60: None, a string, a
    list or a dictionary. *)
Definition time_incomparable (o : list (string * value)) : bool :=
  match assoc "processing_time" o with
  | Some VNone | Some (VStr _) | Some (VList _) | Some (VDict _) => true
  | _ => false
  end.

(** [i] is the index of the maximum of [row], the lowest one on a tie. *)
Definition first_max (row : list float) (i : nat) : Prop :=
  (i < List.length row)%nat
  /\ (forall j, (j < List.length row)%nat ->
                PrimFloat.leb (nth j row nan) (nth i row nan) = true)
  /\ (forall j, (j < i)%nat ->
                PrimFloat.ltb (nth j row nan) (nth i row nan) = true).

Definition no_nan (row : list float) : Prop :=
  Forall (fun v => is_nan v = false) row.

(** [b] is [a] with more records in its log: every attribute that takes
    part in learning is the same. *)
Definition same_learning {Params Optim} (a b : Agent Params Optim) : Prop :=
  policy_net b = policy_net a
  /\ target_net b = target_net a
  /\ optimizer b = optimizer a
  /\ memory b = memory a
  /\ epsilon b = epsilon a
  /\ steps b = steps a
  /\ episodes b = episodes a
  /\ exists l, logger b = logger a ++ l.

(** The agent once [process] is past its conditional training step. *)
Definition after_training {Params Optim}
  (learn : Params -> Params -> Optim ->
           list (list float) -> list Z -> list float ->
           list (list float) -> res (Params * Optim))
  (env : Env) (a : Agent Params Optim) : Agent Params Optim :=
  if min_experiences <=? Z.of_nat (List.length (memory a))
  then snd (_train learn env a) else a.

(** The agent after a series of incidents, each processed in the
    environment it meets; an incident whose processing raises leaves the
    agent as the failed call left it. *)
Fixpoint process_all {Params Optim}
  (forward : Params -> list float -> list float)
  (learn : Params -> Params -> Optim ->
           list (list float) -> list Z -> list float ->
           list (list float) -> res (Params * Optim))
  (incidents : list (Env * value)) (a : Agent Params Optim)
  : Agent Params Optim :=
  match incidents with
  | [] => a
  | (env, data) :: rest =>
      process_all forward learn rest (snd (process forward learn env data a))
  end.

(* ================================================================= *)
(** ** A small network for concrete runs *)

(** A network whose parameters are the row of action values it answers
    with, whatever the state; a learning step adds one to every value. *)
Definition row_forward (p : list float) (state : list float) : list float := p.

Definition row_learn (p t : list float) (o : unit)
  (states : list (list float)) (acts : list Z) (rewards : list float)
  (next_states : list (list float)) : res (list float * unit) :=
  Ok (map (fun q => (q + 1.0)%float) p, tt).

Definition row_load (v : value) : res (list float) :=
  match v with
  | VList l => FloatTensor l
  | _ => Raise (TypeError "not a state_dict")
  end.

Definition row_load_optim (v : value) : res unit := Ok tt.

Definition row_agent : Agent (list float) unit :=
  new_agent [0.1; 0.5; 0.2; 0.0; 0.3]%float tt.

(** An environment in which every outside call succeeds. *)
Definition calm_env (r : float) (k : Z) : Env :=
  mkEnv r k (fun m n => firstn (Z.to_nat n) m) "2024-01-01T00:00:00"
        (fun _ => Ok tt) (fun _ => Ok (VDict [])).

(** The state vector of an incident without signals. *)
Definition zero_state : list float := repeat 0.0%float 20.

Definition zero_experience : Experience :=
  mkExperience (zeros state_size) 4 (-1.0)%float (zeros state_size).

(** The new agent with exploration switched off. *)
Definition greedy_agent : Agent (list float) unit :=
  set_epsilon row_agent 0.0%float.

(** An agent that has worked for a while. *)
Definition trained_agent : Agent (list float) unit :=
  set_epsilon (set_steps row_agent 250) 0.5%float.

(** An environment whose database service answers 503 to every request. *)
Definition store_down_env : Env :=
  mkEnv 0.5%float 3 (fun m n => firstn (Z.to_nat n) m) "2024-01-01T00:00:00"
        (fun _ => Ok tt)
        (fun _ => Raise (Exn "HTTPStatusError" "503 Service Unavailable")).

(** A bag whose historical data is null, and one with a text for a score. *)
Definition bag_null_history : value :=
  VDict [ ("email_analysis",
           VDict [("authentication_score", VFloat 0.7%float);
                  ("links", VList [VStr "http://a"; VStr "http://b"])]);
          ("historical_data", VNone) ].

Definition bag_text_score : value :=
  VDict [ ("email_analysis", VDict [("authentication_score", VStr "high")]) ].

(** The three outcome records of the specification's examples. *)
Definition outcome_success_prevented : list (string * value) :=
  [("status", VStr "success"); ("prevented_attack", VBool true)].
Definition outcome_failed_false_positive : list (string * value) :=
  [("status", VStr "failed"); ("false_positive", VBool true)].
Definition outcome_success : list (string * value) :=
  [("status", VStr "success")].

(** Two records outside the typing of the table: a processing time that
    is null, and a flag that is a text. *)
Definition outcome_null_time : list (string * value) :=
  [("status", VStr "success"); ("prevented_attack", VBool true);
   ("processing_time", VNone)].
Definition outcome_text_flag : list (string * value) :=
  [("status", VStr "success"); ("prevented_attack", VStr "no")].

(** The reward as the code accumulates it, given the seven conditions. *)
Definition reward_steps (success failed prevented false_pos positive negative late : bool)
  : float :=
  let reward := 0.0%float in
  let reward := if success then (reward + 1.0)%float
                else if failed then (reward - 1.0)%float else reward in
  let reward := if prevented then (reward + 2.0)%float else reward in
  let reward := if false_pos then (reward - 2.0)%float else reward in
  let reward := if positive then (reward + 0.5)%float
                else if negative then (reward - 0.5)%float else reward in
  if late then (reward - 0.1)%float else reward.

(* ================================================================= *)
(** ** The experience and the response of one incident *)

(** The outcome [_execute_action] hands back when it fails. *)
Definition failed_outcome (msg : string) : value :=
  VDict [("status", VStr "failed"); ("error", VStr msg)].

(** The experience [process] stores for the bag [data] and the action
    [action_idx]. *)
Definition stored_experience (data : value) (action_idx : Z) : Experience :=
  mkExperience (fst (_extract_state data)) action_idx (-1.0)%float
               (zeros state_size).

(** An experience recorded from a failed outcome. *)
Definition records_failure (e : Experience) : Prop :=
  exp_reward e = (-1.0)%float /\ exp_next_state e = zeros state_size.

(** The names of the action catalog. *)
Definition action_names : list string := map snd actions.

(** The payload the system test (tests/test_agents.py) hands to [process]:
    the incident identifier, and the analyses nested under one key. *)
Definition test_payload (incident_id analyses : value) : value :=
  VDict [("incident_id", incident_id); ("analysis_results", analyses)].

(** Every attribute of the agent that takes part in learning: all but
    the log. *)
Definition learning_state {Params Optim} (a : Agent Params Optim) :=
  (policy_net a, target_net a, optimizer a, memory a, epsilon a, steps a,
   episodes a).

(** An experience a training step can put in a batch: a state of
    [state_size] entries that [torch.FloatTensor] accepts, an action that
    is a key of [self.actions], a next state that is a tensor too. *)
Definition usable (e : Experience) : Prop :=
  List.length (exp_state e) = Z.to_nat state_size
  /\ is_ok (FloatTensor (exp_state e)) = true
  /\ 0 <= exp_action e < action_size
  /\ is_ok (FloatTensor (exp_next_state e)) = true.

(* ================================================================= *)
(** ** [BaseAgent]: the life cycle (base_agent.py) *)

Section Lifecycle.

Context {Params Optim : Type}.
Context (torch_load : value -> res Params).
Context (torch_load_optim : value -> res Optim).

(** The attributes [BaseAgent.__init__] adds to the agent. *)
Record BaseAgent : Type := mkBaseAgent {
  self : Agent Params Optim;
  _running : bool;
  _initialized : bool
}.

Definition agent_id : string := "reinforcement_learning".

(** [ReinforcementLearningAgent(config)], as [BaseAgent.__init__] leaves
    it. *)
Definition new_base (p0 : Params) (o0 : Optim) : BaseAgent :=
  mkBaseAgent (new_agent p0 o0) false false.

(** [start()] *)
Definition start (env : Env) (b : BaseAgent) : res unit * BaseAgent :=
  if _running b then (Ok tt, b)
  else
    match (if negb (_initialized b)
           then initialize torch_load torch_load_optim env (self b)
           else (Ok tt, self b)) with
    | (Raise e, a) => (Raise e, mkBaseAgent a (_running b) (_initialized b))
    | (Ok _, a) =>
        (Ok tt,
         mkBaseAgent
           (set_logger a (logger a ++ [LogInfo ("Agent " ++ agent_id ++ " started")%string]))
           true true)
    end.

(** [stop()] *)
Definition stop (b : BaseAgent) : res unit * BaseAgent :=
  (Ok tt,
   mkBaseAgent
     (set_logger (self b)
        (logger (self b) ++ [LogInfo ("Agent " ++ agent_id ++ " stopped")%string]))
     false (_initialized b)).

(** [get_status()]: agent_id, running, initialized. *)
Definition get_status (b : BaseAgent) : string * bool * bool :=
  (agent_id, _running b, _initialized b).

(** What the host does with an agent between incidents. *)
Inductive command : Type :=
| Start (env : Env)
| Stop.

Fixpoint run_commands (cmds : list command) (b : BaseAgent) : BaseAgent :=
  match cmds with
  | [] => b
  | Start env :: rest => run_commands rest (snd (start env b))
  | Stop :: rest => run_commands rest (snd (stop b))
  end.

End Lifecycle.

Arguments BaseAgent : clear implicits.

(** The records "Initializing Reinforcement Learning Agent" of a log: one
    per call of [initialize]. *)
Definition is_initializing (r : log_record) : bool :=
  match r with
  | LogInfo msg => String.eqb msg "Initializing Reinforcement Learning Agent"
  | LogError _ => false
  end.

Definition initializations (log : list log_record) : nat :=
  List.length (filter is_initializing log).

(* ================================================================= *)
(** ** [Database]: reading a response (database.py) *)

Definition IndexError (what : string) : exn := Exn "IndexError" what.
Definition JSONDecodeError (what : string) : exn := Exn "JSONDecodeError" what.

(** One HTTP exchange, as a method of [Database] meets it. *)
Record Exchange : Type := mkExchange {
  (** [await self.client.post(...)] / [get(...)]: a transport error raises *)
  x_sent : res unit;
  (** [response.raise_for_status()] *)
  x_status : res unit;
  (** [response.json()] *)
  x_json : res value
}.

(** [v[0]] *)
Definition py_item0 (v : value) : res value :=
  match v with
  | VList (x :: _) => Ok x
  | VList [] => Raise (IndexError "list index out of range")
  | VStr (String c _) => Ok (VStr (String c EmptyString))
  | VStr EmptyString => Raise (IndexError "string index out of range")
  | VDict _ => Raise (KeyError "0")
  | _ => Raise (TypeError "object is not subscriptable")
  end.

(** [except (json.JSONDecodeError, IndexError)] *)
Definition decode_or_index_error (e : exn) : bool :=
  match e with
  | Exn kind _ => String.eqb kind "JSONDecodeError" || String.eqb kind "IndexError"
  end.

(** The closing [try] of the three methods:
    [return response.json()[0] if response.json() else default], with
    [default] returned as well on JSONDecodeError and IndexError. *)
Definition first_row (x : Exchange) (default : value) : res value :=
  match (test <- x_json x ;;
         if py_truthy test then (rows <- x_json x ;; py_item0 rows)
         else Ok default)%res with
  | Ok v => Ok v
  | Raise e => if decode_or_index_error e then Ok default else Raise e
  end.

(** [insert_phishing_incident(data)] *)
Definition insert_phishing_incident (data : value) (x : Exchange) : res value :=
  (_ <- py_getitem data "incident_id" ;;
   _ <- x_sent x ;;
   _ <- x_status x ;;
   first_row x (VDict []))%res.

(** [update_analysis_result(incident_id, data)] *)
Definition update_analysis_result (x : Exchange) : res value :=
  (_ <- x_sent x ;;
   _ <- x_status x ;;
   first_row x (VDict []))%res.

(** [get_analysis_result(incident_id)] *)
Definition get_analysis_result (x : Exchange) : res value :=
  (_ <- x_sent x ;;
   _ <- x_status x ;;
   first_row x VNone)%res.

(* ================================================================= *)
(** ** The network: class [DQN] *)

(** [nn.Linear(in_features, out_features)]: one row of weights and one
    bias per output. *)
Record Linear : Type := mkLinear {
  in_features : nat;
  weight : list (list float);
  bias : list float
}.

(** The shape [nn.Linear(n_in, n_out)] gives its parameters. *)
Definition Linear_shape (l : Linear) (n_in n_out : nat) : Prop :=
  in_features l = n_in
  /\ List.length (weight l) = n_out
  /\ List.length (bias l) = n_out.

Record DQN : Type := mkDQN {
  fc1 : Linear;
  fc2 : Linear;
  fc3 : Linear
}.

(** [DQN(state_size, action_size)] *)
Definition DQN_shape (net : DQN) : Prop :=
  Linear_shape (fc1 net) (Z.to_nat state_size) 128
  /\ Linear_shape (fc2 net) 128 64
  /\ Linear_shape (fc3 net) 64 (Z.to_nat action_size).

Section Network.

(** One output of a linear layer: the product of a row of weights with
    the input, plus the bias, as torch computes it. *)
Context (affine : list float -> float -> list float -> float).

(** [nn.ReLU] on one entry. *)
Context (relu : float -> float).

(** [layer(x)] for one input row: the input must have [in_features]
    entries. *)
Definition Linear_forward (l : Linear) (x : list float) : res (list float) :=
  if Nat.eqb (List.length x) (in_features l)
  then Ok (map (fun wb => affine (fst wb) (snd wb) x) (combine (weight l) (bias l)))
  else Raise (Exn "RuntimeError" "mat1 and mat2 shapes cannot be multiplied").

(** [DQN.forward(x)] *)
Definition DQN_forward (net : DQN) (x : list float) : res (list float) :=
  (h1 <- Linear_forward (fc1 net) x ;;
   let x := map relu h1 in
   h2 <- Linear_forward (fc2 net) x ;;
   let x := map relu h2 in
   Linear_forward (fc3 net) x)%res.

End Network.

(* ================================================================= *)
(** ** More concrete inputs *)

(** An environment whose message queue is down and whose database answers
    [update_analysis_result] only. *)
Definition queue_down_env (r : float) (k : Z) : Env :=
  mkEnv r k (fun m n => firstn (Z.to_nat n) m) "2024-01-01T00:00:00"
        (fun _ => Raise (Exn "ConnectionError" "queue unreachable"))
        (fun name => if String.eqb name "update_analysis_result"
                     then Ok (VDict [])
                     else Raise (Exn "HTTPStatusError" "503 Service Unavailable")).

(** A response with one stored row. *)
Definition one_row_exchange : Exchange :=
  mkExchange (Ok tt) (Ok tt)
             (Ok (VList [VDict [("incident_id", VStr "inc-1")]])).

(** Kernels for the layers: the weighted sum plus the bias, and
    [max(0, x)]. *)
Definition dot_affine (w : list float) (b : float) (x : list float) : float :=
  fold_left (fun acc wx => (acc + fst wx * snd wx)%float) (combine w x) b.

Definition relu_entry (x : float) : float :=
  if PrimFloat.ltb x 0.0%float then 0.0%float else x.

(** A layer all of whose weights are [w] and all of whose biases are [b],
    and a network of three such layers in the constructor's sizes. *)
Definition constant_layer (n_in n_out : nat) (w b : float) : Linear :=
  mkLinear n_in (repeat (repeat w n_in) n_out) (repeat b n_out).

Definition constant_net : DQN :=
  mkDQN (constant_layer 20 128 0.01%float 0.0%float)
        (constant_layer 128 64 0.01%float 0.1%float)
        (constant_layer 64 5 0.5%float (-0.25)%float).

(* ================================================================= *)
(** ** State extraction *)

Ltac invert_res H :=
  repeat match type of H with
    | context [match ?x with Ok _ => _ | Raise _ => _ end] =>
        destruct x; try discriminate H
    end.

Lemma email_features_length data b :
  email_features data = Ok b -> List.length b = 6%nat.
Proof.
  unfold email_features, res_bind. intros H. invert_res H.
  now injection H as <-.
Qed.

Lemma domain_features_length data b :
  domain_features data = Ok b -> List.length b = 4%nat.
Proof.
  unfold domain_features, res_bind. intros H. invert_res H.
  now injection H as <-.
Qed.

Lemma threat_features_length data b :
  threat_features data = Ok b -> List.length b = 4%nat.
Proof.
  unfold threat_features, res_bind. intros H. invert_res H.
  now injection H as <-.
Qed.

Lemma history_features_length data b :
  history_features data = Ok b -> List.length b = 4%nat.
Proof.
  unfold history_features, res_bind. intros H. invert_res H.
  now injection H as <-.
Qed.

Lemma user_features_length data b :
  user_features data = Ok b -> List.length b = 2%nat.
Proof.
  unfold user_features, res_bind. intros H. invert_res H.
  now injection H as <-.
Qed.

Lemma fit_state_exact state :
  Z.of_nat (List.length state) = state_size -> fit_state state = state.
Proof.
  unfold fit_state. intros ->. now rewrite Z.ltb_irrefl.
Qed.

Lemma missing_category_defaults (d : list (string * value)) :
  (assoc "email_analysis" d = None -> email_features (VDict d) = Ok (zeros 6))
  /\ (assoc "domain_analysis" d = None -> domain_features (VDict d) = Ok (zeros 4))
  /\ (assoc "threat_intelligence" d = None -> threat_features (VDict d) = Ok (zeros 4))
  /\ (assoc "historical_data" d = None -> history_features (VDict d) = Ok (zeros 4))
  /\ (assoc "user_context" d = None -> user_features (VDict d) = Ok (zeros 2)).
Proof.
  unfold email_features, domain_features, threat_features, history_features,
    user_features, py_get.
  repeat split; intros ->; reflexivity.
Qed.

(** C2, as the code has it: one [try] spans the five blocks.  When the
    five extractions succeed the state vector is the concatenation of the
    five blocks; when any one of them raises, all twenty slots are
    zero-filled, those of the blocks that could be extracted included.  The
    vector has twenty entries either way.  A category that is missing from
    the bag raises nothing: its block holds the defaults, 0.0. *)
Theorem extract_state_all_or_nothing (data : value) :
  fst (_extract_state data) =
    match email_features data, domain_features data, threat_features data,
          history_features data, user_features data with
    | Ok b1, Ok b2, Ok b3, Ok b4, Ok b5 => b1 ++ b2 ++ b3 ++ b4 ++ b5
    | _, _, _, _, _ => zeros state_size
    end
  /\ Z.of_nat (List.length (fst (_extract_state data))) = state_size
  /\ (forall d, data = VDict d ->
      (assoc "email_analysis" d = None -> email_features data = Ok (zeros 6))
      /\ (assoc "domain_analysis" d = None -> domain_features data = Ok (zeros 4))
      /\ (assoc "threat_intelligence" d = None -> threat_features data = Ok (zeros 4))
      /\ (assoc "historical_data" d = None -> history_features data = Ok (zeros 4))
      /\ (assoc "user_context" d = None -> user_features data = Ok (zeros 2))).
Proof.
  split; [|split; [|intros d ->; apply missing_category_defaults]];
  unfold _extract_state, extract_features, res_bind;
  (destruct (email_features data) as [b1|e1] eqn:E1; [|reflexivity]);
  (destruct (domain_features data) as [b2|e2] eqn:E2; [|reflexivity]);
  (destruct (threat_features data) as [b3|e3] eqn:E3; [|reflexivity]);
  (destruct (history_features data) as [b4|e4] eqn:E4; [|reflexivity]);
  (destruct (user_features data) as [b5|e5] eqn:E5; [|reflexivity]);
  apply email_features_length in E1; apply domain_features_length in E2;
  apply threat_features_length in E3; apply history_features_length in E4;
  apply user_features_length in E5;
  (assert (Hlen : Z.of_nat (List.length (b1 ++ b2 ++ b3 ++ b4 ++ b5)) = state_size)
    by (rewrite !length_app, E1, E2, E3, E4, E5; reflexivity));
  simpl fst; rewrite (fit_state_exact _ Hlen); [reflexivity|exact Hlen].
Qed.

Lemma extract_state_all_or_nothing_witness :
  assoc "user_context" [("email_analysis", VDict [])] = None
  /\ user_features (VDict [("email_analysis", VDict [])]) = Ok (zeros 2).
Proof.
  split; [reflexivity|].
  destruct (extract_state_all_or_nothing (VDict [("email_analysis", VDict [])]))
    as (_ & _ & H).
  destruct (H _ eq_refl) as (_ & _ & _ & _ & Hu).
  apply Hu. reflexivity.
Defined.

(** C2 fails as stated: with a null [historical_data] the historical block
    raises, and the code zero-fills the email block too, although its
    extraction succeeds and per-block isolation would keep its values. *)
Lemma extract_state_not_isolated :
  email_features bag_null_history
  = Ok [VFloat 0.0%float; VFloat 0.7%float; VFloat 0.0%float; VFloat 0.0%float;
        VFloat 0.0%float; VFloat 0.2%float]
  /\ is_ok (history_features bag_null_history) = false
  /\ fst (_extract_state bag_null_history) = zeros state_size
  /\ fst (_extract_state bag_null_history) <> encode_isolated bag_null_history.
Proof.
  split; [vm_compute; reflexivity|].
  split; [reflexivity|].
  split; [reflexivity|].
  intros H.
  apply (f_equal (fun l => match nth 1 l VNone with
                           | VFloat f => PrimFloat.eqb f 0.0%float
                           | _ => false
                           end)) in H.
  vm_compute in H. discriminate H.
Qed.

(* ================================================================= *)
(** ** Reward *)

Lemma get_eq_str o k s :
  py_eq_str (match assoc k o with Some v => v | None => VNone end) s
  = field_str o k s.
Proof. unfold field_str. now destruct (assoc k o) as [[]|]. Qed.

Lemma get_truthy o k :
  flag_typed o k = true ->
  py_truthy (match assoc k o with Some v => v | None => VNone end)
  = field_true o k.
Proof.
  unfold flag_typed, field_true.
  destruct (assoc k o) as [[| [] | | | | |]|]; simpl; congruence.
Qed.

Lemma get_gt o k n :
  number_typed o k = true ->
  py_gt (match assoc k o with Some v => v | None => VInt 0 end) n
  = Ok (match assoc k o with Some _ => field_exceeds o k n | None => n <? 0 end).
Proof.
  unfold number_typed, field_exceeds.
  destruct (assoc k o) as [[]|]; simpl; congruence.
Qed.

Lemma field_str_exclusive o k s t :
  s <> t -> field_str o k s = true -> field_str o k t = false.
Proof.
  unfold field_str. destruct (assoc k o) as [[]|]; try discriminate.
  intros Hne Hs. apply String.eqb_eq in Hs. subst. now apply String.eqb_neq.
Qed.

Lemma reward_terms_steps o :
  outcome_typed o = true ->
  reward_terms (VDict o) =
  Ok (reward_steps (field_str o "status" "success") (field_str o "status" "failed")
        (field_true o "prevented_attack") (field_true o "false_positive")
        (field_str o "user_feedback" "positive")
        (field_str o "user_feedback" "negative")
        (field_exceeds o "processing_time" 60)).
Proof.
  unfold outcome_typed. rewrite !andb_true_iff. intros [[Hp Hf] Ht].
  unfold reward_terms, res_bind, py_get.
  replace (match assoc "status" o with Some v => Ok v | None => Ok VNone end)
    with (Ok (match assoc "status" o with Some v => v | None => VNone end))
    by (now destruct (assoc "status" o)).
  replace (match assoc "prevented_attack" o with Some v => Ok v | None => Ok VNone end)
    with (Ok (match assoc "prevented_attack" o with Some v => v | None => VNone end))
    by (now destruct (assoc "prevented_attack" o)).
  replace (match assoc "false_positive" o with Some v => Ok v | None => Ok VNone end)
    with (Ok (match assoc "false_positive" o with Some v => v | None => VNone end))
    by (now destruct (assoc "false_positive" o)).
  replace (match assoc "user_feedback" o with Some v => Ok v | None => Ok VNone end)
    with (Ok (match assoc "user_feedback" o with Some v => v | None => VNone end))
    by (now destruct (assoc "user_feedback" o)).
  replace (match assoc "processing_time" o with Some v => Ok v | None => Ok (VInt 0) end)
    with (Ok (match assoc "processing_time" o with Some v => v | None => VInt 0 end))
    by (now destruct (assoc "processing_time" o)).
  rewrite !get_eq_str, (get_truthy _ _ Hp), (get_truthy _ _ Hf), (get_gt _ _ _ Ht).
  replace (match assoc "processing_time" o with
           | Some _ => field_exceeds o "processing_time" 60
           | None => 60 <? 0
           end)
    with (field_exceeds o "processing_time" 60)
    by (unfold field_exceeds; now destruct (assoc "processing_time" o)).
  unfold reward_steps.
  destruct (field_str o "status" "success"), (field_str o "status" "failed"),
    (field_str o "user_feedback" "positive"), (field_str o "user_feedback" "negative");
    reflexivity.
Qed.

(** The run of the [try] of [_calculate_reward] on any record: the seven
    conditions as the code tests them, and the comparison of the
    processing time with 60, which is the one place that can raise. *)
Lemma reward_terms_run o :
  reward_terms (VDict o) =
  match py_gt (match assoc "processing_time" o with Some v => v | None => VInt 0 end) 60 with
  | Ok late =>
      Ok (reward_steps (field_str o "status" "success") (field_str o "status" "failed")
            (field_truthy o "prevented_attack") (field_truthy o "false_positive")
            (field_str o "user_feedback" "positive")
            (field_str o "user_feedback" "negative") late)
  | Raise e => Raise e
  end.
Proof.
  unfold reward_terms, res_bind, py_get.
  replace (match assoc "status" o with Some v => Ok v | None => Ok VNone end)
    with (Ok (match assoc "status" o with Some v => v | None => VNone end))
    by (now destruct (assoc "status" o)).
  replace (match assoc "prevented_attack" o with Some v => Ok v | None => Ok VNone end)
    with (Ok (match assoc "prevented_attack" o with Some v => v | None => VNone end))
    by (now destruct (assoc "prevented_attack" o)).
  replace (match assoc "false_positive" o with Some v => Ok v | None => Ok VNone end)
    with (Ok (match assoc "false_positive" o with Some v => v | None => VNone end))
    by (now destruct (assoc "false_positive" o)).
  replace (match assoc "user_feedback" o with Some v => Ok v | None => Ok VNone end)
    with (Ok (match assoc "user_feedback" o with Some v => v | None => VNone end))
    by (now destruct (assoc "user_feedback" o)).
  replace (match assoc "processing_time" o with Some v => Ok v | None => Ok (VInt 0) end)
    with (Ok (match assoc "processing_time" o with Some v => v | None => VInt 0 end))
    by (now destruct (assoc "processing_time" o)).
  rewrite !get_eq_str.
  replace (py_truthy (match assoc "prevented_attack" o with Some v => v | None => VNone end))
    with (field_truthy o "prevented_attack")
    by (unfold field_truthy; now destruct (assoc "prevented_attack" o)).
  replace (py_truthy (match assoc "false_positive" o with Some v => v | None => VNone end))
    with (field_truthy o "false_positive")
    by (unfold field_truthy; now destruct (assoc "false_positive" o)).
  unfold reward_steps.
  destruct (py_gt _ 60);
    destruct (field_str o "status" "success"), (field_str o "status" "failed"),
      (field_str o "user_feedback" "positive"), (field_str o "user_feedback" "negative");
    reflexivity.
Qed.

(** A processing time that can be compared is late when it exceeds 60. *)
Lemma comparable_time_gt o :
  time_incomparable o = false ->
  py_gt (match assoc "processing_time" o with Some v => v | None => VInt 0 end) 60
  = Ok (field_exceeds o "processing_time" 60).
Proof.
  unfold time_incomparable, field_exceeds.
  destruct (assoc "processing_time" o) as [[| [] | | | | |]|]; intros H;
    try discriminate H; reflexivity.
Qed.

Lemma incomparable_time_gt o :
  time_incomparable o = true ->
  is_ok (py_gt (match assoc "processing_time" o with Some v => v | None => VInt 0 end) 60)
  = false.
Proof.
  unfold time_incomparable.
  destruct (assoc "processing_time" o) as [[]|]; intros H;
    try discriminate H; reflexivity.
Qed.

(** The accumulation of the code is the sum of the terms that apply, the
    two branches of an [if]/[elif] never applying together. *)
Lemma reward_steps_sum (success failed prevented false_pos positive negative late : bool) :
  (success = true -> failed = false) ->
  (positive = true -> negative = false) ->
  reward_steps success failed prevented false_pos positive negative late
  = fold_left PrimFloat.add
      (term success 1.0%float ++ term failed (-1.0)%float
       ++ term prevented 2.0%float ++ term false_pos (-2.0)%float
       ++ term positive 0.5%float ++ term negative (-0.5)%float
       ++ term late (-0.1)%float) 0.0%float.
Proof.
  intros Hs Hu. unfold reward_steps.
  destruct success; [rewrite (Hs eq_refl)|];
    (destruct positive; [rewrite (Hu eq_refl)|]);
    destruct failed, prevented, false_pos, negative, late; reflexivity.
Qed.

(** C4: the reward is the sum of the applicable terms of the table on the
    outcome records of the table's typing (flags boolean, None or absent;
    processing time a number or absent), and the three rewards the
    specification lists are 3.0, -3.0 and 1.0.  On every other record the
    code is described as well: whenever the processing time can be
    compared with 60, the reward is the sum of the terms with the two
    flags applying on any truthy value and nothing is logged; when it
    cannot (None, a string, a list, a dictionary), the reward is 0.0 and
    one error is logged. *)
Theorem reward_is_sum_of_terms :
  (forall o : list (string * value),
      outcome_typed o = true ->
      fst (_calculate_reward (VDict o)) = reward_spec o)
  /\ fst (_calculate_reward (VDict outcome_success_prevented)) = 3.0%float
  /\ fst (_calculate_reward (VDict outcome_failed_false_positive)) = (-3.0)%float
  /\ fst (_calculate_reward (VDict outcome_success)) = 1.0%float
  /\ (forall o : list (string * value),
         time_incomparable o = false ->
         _calculate_reward (VDict o)
         = (fold_left PrimFloat.add (truthy_terms o) 0.0%float, []))
  /\ (forall o : list (string * value),
         time_incomparable o = true ->
         fst (_calculate_reward (VDict o)) = 0.0%float
         /\ List.length (snd (_calculate_reward (VDict o))) = 1%nat).
Proof.
  split; [|split; [reflexivity|]; split; [reflexivity|]; split; [reflexivity|]; split].
  - intros o Ho. unfold _calculate_reward. rewrite (reward_terms_steps o Ho).
    simpl fst. unfold reward_spec, applicable_terms. apply reward_steps_sum.
    + apply field_str_exclusive. discriminate.
    + apply field_str_exclusive. discriminate.
  - intros o Ho. unfold _calculate_reward.
    rewrite reward_terms_run, (comparable_time_gt o Ho).
    unfold truthy_terms. f_equal. apply reward_steps_sum.
    + apply field_str_exclusive. discriminate.
    + apply field_str_exclusive. discriminate.
  - intros o Ho. unfold _calculate_reward. rewrite reward_terms_run.
    pose proof (incomparable_time_gt o Ho) as Hgt.
    destruct (py_gt _ 60); [discriminate Hgt|]. now split.
Qed.

Lemma reward_is_sum_of_terms_witness :
  outcome_typed outcome_failed_false_positive = true
  /\ fst (_calculate_reward (VDict outcome_failed_false_positive))
     = reward_spec outcome_failed_false_positive.
Proof.
  split; [reflexivity|].
  apply (proj1 reward_is_sum_of_terms). reflexivity.
Defined.

(** C4 fails as stated, for every outcome record: with a null processing
    time the comparison with 60 raises and the reward is 0.0, where the
    table gives 1.0 + 2.0; with the text "no" for a flag the code adds
    the 2.0 the table does not. *)
Lemma reward_not_sum_on_every_record :
  outcome_typed outcome_null_time = false
  /\ reward_spec outcome_null_time = 3.0%float
  /\ fst (_calculate_reward (VDict outcome_null_time)) = 0.0%float
  /\ PrimFloat.eqb (fst (_calculate_reward (VDict outcome_null_time)))
                   (reward_spec outcome_null_time) = false
  /\ outcome_typed outcome_text_flag = false
  /\ reward_spec outcome_text_flag = 1.0%float
  /\ fst (_calculate_reward (VDict outcome_text_flag)) = 3.0%float
  /\ PrimFloat.eqb (fst (_calculate_reward (VDict outcome_text_flag)))
                   (reward_spec outcome_text_flag) = false.
Proof. repeat split; vm_compute; reflexivity. Qed.

(* ================================================================= *)
(** ** Replay memory *)

Section Deque.

Context {A : Type}.
Implicit Types (d xs : list A) (x : A).

Lemma tl_skipn (k : nat) xs : tl (skipn k xs) = skipn (S k) xs.
Proof.
  revert xs; induction k as [|k IH]; intros [|y xs]; simpl; auto.
Qed.

Lemma pushes_snoc (C : Z) xs x :
  pushes C (xs ++ [x]) = deque_append C (pushes C xs) x.
Proof. unfold pushes. now rewrite fold_left_app. Qed.

Lemma deque_append_length (C : Z) d x :
  0 <= C -> Z.of_nat (List.length d) <= C ->
  Z.of_nat (List.length (deque_append C d x)) <= C.
Proof.
  intros HC Hd. unfold deque_append.
  destruct (Z.eqb_spec C 0) as [->|HC0]; [exact Hd|].
  destruct (Z.ltb_spec (Z.of_nat (List.length d)) C) as [Hlt|Hge].
  - rewrite length_app; simpl; lia.
  - destruct d as [|y d]; simpl in *; [lia|].
    rewrite length_app; simpl; lia.
Qed.

Lemma deque_append_full (C : Z) d x :
  0 < C -> Z.of_nat (List.length d) = C ->
  deque_append C d x = tl d ++ [x]
  /\ Z.of_nat (List.length (deque_append C d x)) = C.
Proof.
  intros HC Hd. unfold deque_append.
  destruct (Z.eqb_spec C 0) as [->|_]; [lia|].
  destruct (Z.ltb_spec (Z.of_nat (List.length d)) C) as [Hlt|_]; [lia|].
  split; [reflexivity|].
  destruct d as [|y d]; simpl in *; [lia|].
  rewrite length_app; simpl; lia.
Qed.

(** The memory holds the last [C] items pushed, oldest first. *)
Lemma pushes_last (C : Z) xs :
  0 <= C -> pushes C xs = skipn (List.length xs - Z.to_nat C) xs.
Proof.
  intros HC. induction xs as [|x xs IH] using rev_ind; [reflexivity|].
  rewrite pushes_snoc, IH, length_app; simpl (List.length [x]).
  unfold deque_append.
  destruct (Z.eqb_spec C 0) as [->|HC0].
  - simpl Z.to_nat. rewrite !Nat.sub_0_r.
    rewrite skipn_all. rewrite skipn_all2; [reflexivity|].
    rewrite length_app; simpl; lia.
  - rewrite length_skipn.
    destruct (Z.ltb_spec (Z.of_nat (List.length xs - (List.length xs - Z.to_nat C))) C)
      as [Hlt|Hge].
    + replace (List.length xs - Z.to_nat C)%nat with 0%nat by lia.
      replace (List.length xs + 1 - Z.to_nat C)%nat with 0%nat by lia.
      reflexivity.
    + rewrite tl_skipn.
      replace (List.length xs + 1 - Z.to_nat C)%nat
        with (S (List.length xs - Z.to_nat C)) by lia.
      rewrite skipn_app.
      replace (S (List.length xs - Z.to_nat C) - List.length xs)%nat with 0%nat by lia.
      reflexivity.
Qed.

Lemma deque_append_grows (C : Z) d x :
  Z.of_nat (List.length (deque_append C d x)) <= Z.of_nat (List.length d) + 1.
Proof.
  unfold deque_append.
  destruct (C =? 0); [lia|].
  destruct (Z.of_nat (List.length d) <? C).
  - rewrite length_app; simpl; lia.
  - destruct d as [|y d]; simpl; [lia|]. rewrite length_app; simpl; lia.
Qed.

End Deque.

(** ** Order facts on binary64 numbers, from their specification *)

Lemma SFcompare_antisym (x y : spec_float) :
  SFcompare y x = option_map CompOpp (SFcompare x y).
Proof.
  destruct x as [[]|[]| |[] mx ex], y as [[]|[]| |[] my ey]; simpl; try reflexivity;
    rewrite (Z.compare_antisym ex ey);
    destruct (ex ?= ey); simpl; try reflexivity;
    change (Pos.compare_cont Eq my mx) with (my ?= mx)%positive;
    change (Pos.compare_cont Eq mx my) with (mx ?= my)%positive;
    rewrite (Pos.compare_antisym mx my);
    destruct (mx ?= my)%positive; reflexivity.
Qed.

Ltac order_cases :=
  repeat match goal with
    | |- context [Z.compare ?a ?b] => destruct (Z.compare_spec a b)
    | |- context [Pos.compare_cont Eq ?a ?b] =>
        change (Pos.compare_cont Eq a b) with (Pos.compare a b);
        destruct (Pos.compare_spec a b)
    end.

Lemma SFcompare_le_lt_trans (x y z : spec_float) :
  SFleb x y = true -> SFltb y z = true -> SFltb x z = true.
Proof.
  unfold SFleb, SFltb.
  destruct x as [[]|[]| |[] mx ex], y as [[]|[]| |[] my ey], z as [[]|[]| |[] mz ez];
    simpl; try discriminate; try reflexivity;
    order_cases; cbn [CompOpp];
    intros Hxy Hyz; try discriminate Hxy; try discriminate Hyz;
    try reflexivity; exfalso; lia.
Qed.

Lemma SFleb_refl (x : spec_float) : x <> S754_nan -> SFleb x x = true.
Proof.
  unfold SFleb. destruct x as [[]|[]| |[] mx ex]; simpl; try reflexivity; try congruence;
    intros _; rewrite Z.compare_refl;
    change (Pos.compare_cont Eq mx mx) with (Pos.compare mx mx);
    rewrite Pos.compare_refl; reflexivity.
Qed.

Lemma SFleb_total (x y : spec_float) :
  x <> S754_nan -> y <> S754_nan -> SFleb x y = false -> SFltb y x = true.
Proof.
  intros Hx Hy. unfold SFleb, SFltb. rewrite (SFcompare_antisym x y).
  destruct x as [[]|[]| |[] mx ex], y as [[]|[]| |[] my ey]; try congruence;
    destruct (SFcompare _ _) as [[]|] eqn:E; simpl; try discriminate; try reflexivity;
    simpl in E; discriminate.
Qed.

Lemma SFltb_leb (x y : spec_float) : SFltb x y = true -> SFleb x y = true.
Proof. unfold SFleb, SFltb. now destruct (SFcompare x y) as [[]|]. Qed.

Local Open Scope float_scope.

Lemma is_nan_spec (x : float) : is_nan x = false -> Prim2SF x <> S754_nan.
Proof.
  unfold is_nan. rewrite eqb_spec. intros H E. rewrite E in H. discriminate.
Qed.

Lemma leb_refl (x : float) : is_nan x = false -> (x <=? x) = true.
Proof. intros H. rewrite leb_spec. now apply SFleb_refl, is_nan_spec. Qed.

Lemma leb_total (x y : float) :
  is_nan x = false -> is_nan y = false -> (x <=? y) = false -> (y <? x) = true.
Proof.
  intros Hx Hy. rewrite leb_spec, ltb_spec. now apply SFleb_total; apply is_nan_spec.
Qed.

Lemma leb_ltb_trans (x y z : float) :
  (x <=? y) = true -> (y <? z) = true -> (x <? z) = true.
Proof. rewrite leb_spec, !ltb_spec. apply SFcompare_le_lt_trans. Qed.

Lemma ltb_leb (x y : float) : (x <? y) = true -> (x <=? y) = true.
Proof. rewrite leb_spec, ltb_spec. apply SFltb_leb. Qed.

Lemma eqb_leb (x y : float) : (x =? y) = true -> (x <=? y) = true.
Proof.
  rewrite eqb_spec, leb_spec. unfold SFeqb, SFleb.
  now destruct (SFcompare (Prim2SF x) (Prim2SF y)) as [[]|].
Qed.

(* ================================================================= *)
(** ** [torch_max] *)

Lemma max_from_index (l : list float) :
  forall best bi i, (bi < i)%nat ->
  (snd (max_from best bi i l) < i + List.length l)%nat.
Proof.
  induction l as [|v l IH]; intros best bi i Hbi; simpl.
  - lia.
  - destruct (is_nan best); simpl; [lia|].
    destruct (v <=? best); simpl.
    + specialize (IH best bi (S i)). lia.
    + specialize (IH v i (S i)). lia.
Qed.

Lemma torch_max_index (row : list float) :
  row <> [] -> (snd (torch_max row) < List.length row)%nat.
Proof.
  destruct row as [|v l]; [congruence|]; intros _.
  unfold torch_max. pose proof (max_from_index l v 0 1). simpl in *. lia.
Qed.

(** The loop invariant: [pre] is what the loop has read, [best] is its
    first maximum, found at [bi]. *)
Lemma max_from_first_max (l : list float) :
  forall pre best bi,
  no_nan (pre ++ l) ->
  (bi < List.length pre)%nat ->
  nth bi pre nan = best ->
  (forall j, (j < List.length pre)%nat -> (nth j pre nan <=? best) = true) ->
  (forall j, (j < bi)%nat -> (nth j pre nan <? best) = true) ->
  first_max (pre ++ l) (snd (max_from best bi (List.length pre) l)).
Proof.
  induction l as [|v l IH]; intros pre best bi Hnan Hbi Hbest Hle Hlt.
  - simpl. rewrite app_nil_r. repeat split; auto. now rewrite Hbest.
    intros j Hj. rewrite Hbest. now apply Hlt.
  - assert (Hnb : is_nan best = false).
    { subst best. unfold no_nan in Hnan. rewrite Forall_forall in Hnan.
      apply Hnan, in_or_app. left. now apply nth_In. }
    assert (Hnv : is_nan v = false).
    { unfold no_nan in Hnan. rewrite Forall_forall in Hnan.
      apply Hnan, in_or_app. right. now left. }
    simpl. rewrite Hnb.
    replace (pre ++ v :: l) with ((pre ++ [v]) ++ l) in *
      by (now rewrite <- app_assoc).
    replace (S (List.length pre)) with (List.length (pre ++ [v]))
      by (rewrite length_app; simpl; lia).
    destruct (v <=? best) eqn:Hv; simpl.
    + apply IH; auto.
      * rewrite length_app; simpl; lia.
      * rewrite app_nth1; auto.
      * intros j Hj. rewrite length_app in Hj; simpl in Hj.
        destruct (Nat.eq_dec j (List.length pre)) as [->|Hne].
        -- now rewrite nth_middle.
        -- rewrite app_nth1 by lia. apply Hle. lia.
      * intros j Hj. rewrite app_nth1 by lia. now apply Hlt.
    + apply leb_total in Hv; auto.
      apply IH; auto.
      * rewrite length_app; simpl; lia.
      * now rewrite nth_middle.
      * intros j Hj. rewrite length_app in Hj; simpl in Hj.
        destruct (Nat.eq_dec j (List.length pre)) as [->|Hne].
        -- rewrite nth_middle. now apply leb_refl.
        -- rewrite app_nth1 by lia. apply ltb_leb.
           apply leb_ltb_trans with best; auto. apply Hle. lia.
      * intros j Hj. rewrite app_nth1 by lia.
        apply leb_ltb_trans with best; auto.
Qed.

Lemma torch_max_first_max (row : list float) :
  row <> [] -> no_nan row -> first_max row (snd (torch_max row)).
Proof.
  destruct row as [|v l]; [congruence|]; intros _ Hnan.
  assert (Hv : is_nan v = false) by (now inversion Hnan).
  apply (max_from_first_max l [v] v 0%nat); simpl; auto.
  - intros [|j] Hj; [now apply leb_refl | lia].
  - intros j Hj. lia.
Qed.

Local Close Scope float_scope.

(* ================================================================= *)
(** ** The methods of the agent *)

Section Process.

Context {Params Optim : Type}.
Context (forward : Params -> list float -> list float).
Context (learn : Params -> Params -> Optim ->
                 list (list float) -> list Z -> list float ->
                 list (list float) -> res (Params * Optim)).
Context (torch_load : value -> res Params).
Context (torch_load_optim : value -> res Optim).

Local Abbreviation Agent := (Agent Params Optim).
Implicit Types (a b c : Agent) (env : Env).

Lemma same_learning_refl a : same_learning a a.
Proof. unfold same_learning. repeat split. exists []. now rewrite app_nil_r. Qed.

Lemma same_learning_trans a b c :
  same_learning a b -> same_learning b c -> same_learning a c.
Proof.
  unfold same_learning.
  intros (?&?&?&?&?&?&?&[l1 Hl1]) (?&?&?&?&?&?&?&[l2 Hl2]).
  repeat split; try congruence.
  exists (l1 ++ l2). now rewrite Hl2, Hl1, app_assoc.
Qed.

Lemma same_learning_log a l : same_learning a (set_logger a (logger a ++ l)).
Proof. unfold same_learning. simpl. repeat split. now exists l. Qed.

Lemma select_action_frame env state a :
  snd (_select_action forward env state a) = a.
Proof.
  unfold _select_action, bind, get, lift, ret.
  destruct (PrimFloat.ltb _ _); [|reflexivity].
  now destruct (torch_max_dim _).
Qed.

Lemma execute_action_ok env action data a :
  exists v, fst (_execute_action env action data a) = Ok v
            /\ same_learning a (snd (_execute_action env action data a)).
Proof.
  unfold _execute_action, _wait_for_action_result, try_except, bind, lift, log,
    modify, ret.
  destruct (py_get data "incident_id" VNone); simpl;
    [|eexists; split; [reflexivity|apply same_learning_log]].
  destruct (if String.eqb action "block_sender" then _ else _); simpl;
    [|eexists; split; [reflexivity|apply same_learning_log]].
  eexists; split; [reflexivity|apply same_learning_log].
Qed.

(** What [_train] does, case by case. *)
Lemma train_eq env a :
  _train learn env a =
  (Ok tt,
   if Z.of_nat (List.length (memory a)) <? batch_size then a
   else match train_batch learn env a with
        | Ok po =>
            set_epsilon (set_optimizer (set_policy_net a (fst po)) (snd po))
                        (py_max epsilon_min (epsilon a * epsilon_decay)%float)
        | Raise e =>
            set_logger a
              (logger a ++ [LogError ("Error training network: " ++ exn_str e)%string])
        end).
Proof.
  unfold _train, try_except, bind, get, lift, log, modify, ret.
  destruct (Z.of_nat (List.length (memory a)) <? batch_size); [reflexivity|].
  now destruct (train_batch learn env a).
Qed.

Lemma notify_agents_ok env incident_id results a :
  fst (_notify_agents env incident_id results a) = Ok tt
  /\ same_learning a (snd (_notify_agents env incident_id results a)).
Proof.
  unfold _notify_agents, try_except, bind, lift, log, modify, ret.
  destruct (mq_publish env "score_aggregation"); simpl;
    [|split; [reflexivity|apply same_learning_log]].
  destruct (mq_publish env "logging"); simpl; split; try reflexivity;
    [apply same_learning_refl|apply same_learning_log].
Qed.

Lemma save_model_state_ok env a :
  fst (_save_model_state env a) = Ok tt
  /\ same_learning a (snd (_save_model_state env a)).
Proof.
  unfold _save_model_state, try_except, bind, lift, log, modify, ret.
  simpl. split; [reflexivity|apply same_learning_log].
Qed.

Lemma load_model_state_ok env a :
  fst (_load_model_state torch_load torch_load_optim env a) = Ok tt
  /\ same_learning a (snd (_load_model_state torch_load torch_load_optim env a)).
Proof.
  unfold _load_model_state, try_except, bind, lift, log, modify, ret.
  simpl. split; [reflexivity|apply same_learning_log].
Qed.

Lemma initialize_ok env a :
  fst (initialize torch_load torch_load_optim env a) = Ok tt
  /\ same_learning a (snd (initialize torch_load torch_load_optim env a)).
Proof.
  unfold initialize, bind, log, modify.
  destruct (load_model_state_ok env
              (set_logger a (logger a
                 ++ [LogInfo "Initializing Reinforcement Learning Agent"])))
    as [H1 H2].
  split; [exact H1|].
  eapply same_learning_trans; [apply same_learning_log|exact H2].
Qed.

Lemma cleanup_ok env a :
  fst (cleanup env a) = Ok tt /\ same_learning a (snd (cleanup env a)).
Proof.
  unfold cleanup, bind, log, modify.
  destruct (save_model_state_ok env
              (set_logger a (logger a
                 ++ [LogInfo "Cleaning up Reinforcement Learning Agent"])))
    as [H1 H2].
  split; [exact H1|].
  eapply same_learning_trans; [apply same_learning_log|exact H2].
Qed.

(** Waiting for the result of an action calls a method that class
    [Database] does not define: the outcome is always the failed record. *)
Lemma execute_action_failed env action data a :
  exists msg,
    fst (_execute_action env action data a)
    = Ok (VDict [("status", VStr "failed"); ("error", VStr msg)]).
Proof.
  unfold _execute_action, _wait_for_action_result, try_except, bind, lift, log,
    modify, ret.
  destruct (py_get data "incident_id" VNone); simpl; [|eexists; reflexivity].
  destruct (if String.eqb action "block_sender" then _ else _); simpl;
    eexists; reflexivity.
Qed.

Lemma bind_ok {A B} (m : M Params Optim A) (k : A -> M Params Optim B) a x a' :
  m a = (Ok x, a') -> bind m k a = k x a'.
Proof. unfold bind. now intros ->. Qed.

Lemma bind_raise {A B} (m : M Params Optim A) (k : A -> M Params Optim B) a e a' :
  m a = (Raise e, a') -> bind m k a = (Raise e, a').
Proof. unfold bind. now intros ->. Qed.

(** The learning state after the body of [process]: either the body
    stopped before the experience was stored, and only the log grew; or
    the experience [exp] was stored, a training step ran if the memory
    was large enough, the step counter moved and the target network was
    synchronised when the counter reached a multiple of the frequency. *)
Lemma process_body_shape env data a :
  let out := process_body forward learn env data a in
  (same_learning a (snd out) /\ is_ok (fst out) = false)
  \/ exists exp a1,
       same_learning (set_memory a (deque_append memory_size (memory a) exp)) a1
       /\ let a2 := after_training learn env a1 in
          policy_net (snd out) = policy_net a2
          /\ optimizer (snd out) = optimizer a2
          /\ memory (snd out) = memory a2
          /\ epsilon (snd out) = epsilon a2
          /\ episodes (snd out) = episodes a2
          /\ steps (snd out) = steps a2 + 1
          /\ target_net (snd out) =
               if (steps a2 + 1) mod update_frequency =? 0
               then policy_net a2 else target_net a2.
Proof.
  intros out. remember out as o eqn:Hout. unfold out in Hout. clear out.
  unfold process_body in Hout.
  (* incident_id = data.get('incident_id') *)
  destruct (py_get data "incident_id" VNone) as [incident_id|e] eqn:E1;
    [rewrite (bind_ok _ _ a incident_id a) in Hout by reflexivity
    |rewrite (bind_raise _ _ a e a) in Hout by reflexivity;
     subst o; left; split; [apply same_learning_refl|reflexivity]].
  (* current_state = self._extract_state(data) *)
  set (a0 := set_logger a (logger a ++ snd (_extract_state data))).
  assert (H0 : same_learning a a0) by apply same_learning_log.
  rewrite (bind_ok _ _ a (fst (_extract_state data)) a0) in Hout by reflexivity.
  (* state_tensor = torch.FloatTensor(current_state) *)
  destruct (FloatTensor (fst (_extract_state data))) as [state_tensor|e] eqn:E2;
    [rewrite (bind_ok _ _ a0 state_tensor a0) in Hout by reflexivity
    |rewrite (bind_raise _ _ a0 e a0) in Hout by reflexivity;
     subst o; left; split; [exact H0|reflexivity]].
  (* action_idx = self._select_action(state_tensor) *)
  pose proof (select_action_frame env state_tensor a0) as Hsel.
  destruct (_select_action forward env state_tensor a0) as [[action_idx|e] a0'] eqn:E3;
    simpl in Hsel; subst a0';
    [rewrite (bind_ok _ _ a0 action_idx a0) in Hout by exact E3
    |rewrite (bind_raise _ _ a0 e a0) in Hout by exact E3;
     subst o; left; split; [exact H0|reflexivity]].
  (* action = self.actions[action_idx] *)
  destruct (actions_getitem action_idx) as [action|e] eqn:E4;
    [rewrite (bind_ok _ _ a0 action a0) in Hout by reflexivity
    |rewrite (bind_raise _ _ a0 e a0) in Hout by reflexivity;
     subst o; left; split; [exact H0|reflexivity]].
  (* result = await self._execute_action(action, data) *)
  destruct (execute_action_ok env action data a0) as (result & Hres & Hex).
  destruct (_execute_action env action data a0) as [[result'|e] a1] eqn:E5;
    simpl in Hres, Hex; [|discriminate].
  injection Hres as ->.
  rewrite (bind_ok _ _ a0 result a1) in Hout by exact E5.
  (* reward, next_state, self.memory.append(...) *)
  rewrite (bind_ok _ _ a1 (fst (_calculate_reward result)) _) in Hout by reflexivity.
  rewrite (bind_ok _ _ _ (fst (_extract_state result)) _) in Hout by reflexivity.
  set (exp := mkExperience (fst (_extract_state data)) action_idx
                (fst (_calculate_reward result)) (fst (_extract_state result)))
    in Hout.
  rewrite (bind_ok _ _ _ tt _) in Hout by reflexivity.
  set (a1' := set_memory _ (deque_append memory_size _ exp)) in Hout.
  rewrite (bind_ok _ _ a1' a1' a1') in Hout by reflexivity.
  right. exists exp, a1'.
  assert (H1 : same_learning (set_memory a (deque_append memory_size (memory a) exp)) a1').
  { destruct (same_learning_trans _ _ _ H0 Hex) as (?&?&?&Hm&?&?&?&[l Hl]).
    unfold same_learning, a1'; simpl. rewrite Hm. repeat split; auto.
    exists ((l ++ snd (_calculate_reward result)) ++ snd (_extract_state result)).
    rewrite Hl. now rewrite !app_assoc. }
  split; [exact H1|].
  (* if len(self.memory) >= self.min_experiences: await self._train() *)
  set (a2 := after_training learn env a1').
  rewrite (bind_ok _ _ a1' tt a2) in Hout
    by (unfold a2, after_training;
        destruct (min_experiences <=? _); [now rewrite train_eq|reflexivity]).
  (* self.steps += 1 and the periodic copy *)
  set (a3 := set_steps a2 (steps a2 + 1)).
  rewrite (bind_ok _ _ a2 tt a3) in Hout by reflexivity.
  rewrite (bind_ok _ _ a3 a3 a3) in Hout by reflexivity.
  set (a4 := if steps a3 mod update_frequency =? 0
             then set_target_net a3 (policy_net a3) else a3).
  rewrite (bind_ok _ _ a3 tt a4) in Hout
    by (unfold a4; now destruct (steps a3 mod update_frequency =? 0)).
  rewrite (bind_ok _ _ a4 a4 a4) in Hout by reflexivity.
  assert (H4 : policy_net a4 = policy_net a2 /\ optimizer a4 = optimizer a2
               /\ memory a4 = memory a2 /\ epsilon a4 = epsilon a2
               /\ episodes a4 = episodes a2 /\ steps a4 = steps a2 + 1
               /\ target_net a4 = if (steps a2 + 1) mod update_frequency =? 0
                                  then policy_net a2 else target_net a2).
  { unfold a4, a3; simpl.
    destruct ((steps a2 + 1) mod update_frequency =? 0); simpl; repeat split. }
  (* the response, the stored result, the notifications *)
  destruct (torch_max_dim (forward (policy_net a4) state_tensor)) as [confidence|e] eqn:E6;
    [rewrite (bind_ok _ _ a4 confidence a4) in Hout by reflexivity
    |rewrite (bind_raise _ _ a4 e a4) in Hout by reflexivity;
     subst o; exact H4].
  destruct (db_call env "update_analysis_result") as [stored|e] eqn:E7;
    [rewrite (bind_ok _ _ a4 stored a4) in Hout by reflexivity
    |rewrite (bind_raise _ _ a4 e a4) in Hout by reflexivity;
     subst o; exact H4].
  match type of Hout with
  | context [_notify_agents env ?i ?r] =>
      destruct (notify_agents_ok env i r a4) as [Hn1 Hn2];
      destruct (_notify_agents env i r a4) as [[[]|e] a5] eqn:E8
  end; simpl in Hn1, Hn2; [|discriminate].
  rewrite (bind_ok _ _ a4 tt a5) in Hout by exact E8.
  subst o; simpl.
  destruct Hn2 as (->&->&->&->&->&->&->&_). exact H4.
Qed.

Lemma train_frame env a :
  let a' := snd (_train learn env a) in
  target_net a' = target_net a
  /\ memory a' = memory a
  /\ steps a' = steps a
  /\ episodes a' = episodes a
  /\ (epsilon a' = epsilon a
      \/ epsilon a' = py_max epsilon_min (epsilon a * epsilon_decay)%float).
Proof.
  rewrite train_eq. simpl snd.
  destruct (Z.of_nat (List.length (memory a)) <? batch_size); [now auto 6|].
  destruct (train_batch learn env a); simpl; now auto 6.
Qed.

Lemma after_training_frame env a1 :
  let a2 := after_training learn env a1 in
  target_net a2 = target_net a1
  /\ memory a2 = memory a1
  /\ steps a2 = steps a1
  /\ episodes a2 = episodes a1
  /\ (epsilon a2 = epsilon a1
      \/ (min_experiences <= Z.of_nat (List.length (memory a1))
          /\ epsilon a2 = py_max epsilon_min (epsilon a1 * epsilon_decay)%float)).
Proof.
  unfold after_training.
  destruct (Z.leb_spec min_experiences (Z.of_nat (List.length (memory a1))))
    as [Hge|Hlt]; [|now auto 6].
  destruct (train_frame env a1) as (?&?&?&?&[He|He]); now auto 8.
Qed.

(** [process] returns or raises what its body does; a raised exception is
    first logged by [handle_error]. *)
Lemma process_handler env data a :
  let body := process_body forward learn env data a in
  let out := process forward learn env data a in
  fst out = fst body
  /\ same_learning (snd body) (snd out)
  /\ logger (snd out) =
       match fst body with
       | Ok _ => logger (snd body)
       | Raise e =>
           logger (snd body)
           ++ [LogError ("Error in reinforcement_learning: " ++ exn_str e)%string;
               LogError "traceback.format_exc()"]
       end.
Proof.
  unfold process, try_except, handle_error, bind, log, modify, raise.
  destruct (process_body forward learn env data a) as [[r|e] a']; simpl.
  - repeat split. apply same_learning_refl.
  - repeat split.
    + eexists. now rewrite <- app_assoc.
    + now rewrite <- app_assoc.
Qed.

Lemma process_shape env data a :
  let out := process forward learn env data a in
  (same_learning a (snd out) /\ is_ok (fst out) = false)
  \/ exists exp a1,
       same_learning (set_memory a (deque_append memory_size (memory a) exp)) a1
       /\ let a2 := after_training learn env a1 in
          policy_net (snd out) = policy_net a2
          /\ optimizer (snd out) = optimizer a2
          /\ memory (snd out) = memory a2
          /\ epsilon (snd out) = epsilon a2
          /\ episodes (snd out) = episodes a2
          /\ steps (snd out) = steps a2 + 1
          /\ target_net (snd out) =
               if (steps a2 + 1) mod update_frequency =? 0
               then policy_net a2 else target_net a2.
Proof.
  intros out.
  destruct (process_handler env data a) as (Hfst & Hsame & _).
  fold out in Hfst, Hsame.
  destruct (process_body_shape env data a) as [[Hb Hr]|(exp & a1 & H1 & H2)].
  - left. split; [now apply same_learning_trans with (2 := Hsame)|].
    now rewrite Hfst.
  - right. exists exp, a1. split; [exact H1|].
    destruct Hsame as (->&->&->&->&->&->&->&_). exact H2.
Qed.

(** What one call of [process] does to the attributes that steer
    learning. *)
Lemma process_effect env data a :
  let a' := snd (process forward learn env data a) in
  (memory a' = memory a
   \/ exists exp, memory a' = deque_append memory_size (memory a) exp)
  /\ (epsilon a' = epsilon a
      \/ (min_experiences <= Z.of_nat (List.length (memory a'))
          /\ epsilon a' = py_max epsilon_min (epsilon a * epsilon_decay)%float))
  /\ (steps a' = steps a \/ steps a' = steps a + 1)
  /\ target_net a' =
       if (steps a' =? steps a + 1) && (steps a' mod update_frequency =? 0)
       then policy_net a' else target_net a.
Proof.
  intros a'. destruct (process_shape env data a) as [[Hs _]|(exp & a1 & H1 & H2)];
    fold a' in Hs || fold a' in H2.
  - destruct Hs as (_&Ht&_&Hm&He&Hst&_).
    repeat split; auto.
    rewrite Hst, Ht.
    replace (steps a =? steps a + 1) with false by (symmetry; apply Z.eqb_neq; lia).
    reflexivity.
  - destruct H1 as (_&Ht1&_&Hm1&He1&Hs1&_). simpl in Ht1, Hm1, He1, Hs1.
    destruct (after_training_frame env a1) as (Ht2&Hm2&Hs2&_&He2).
    cbv zeta in H2. destruct H2 as (Hp&_&Hm&He&_&Hst&Ht).
    rewrite Hs2, Hs1 in Hst. rewrite Hs2, Hs1, Ht2, Ht1 in Ht.
    rewrite Hm2, Hm1 in Hm. rewrite Hm1 in He2. rewrite He1 in He2.
    repeat split.
    + right. now exists exp.
    + rewrite He, Hm. destruct He2 as [->|[? ->]]; auto.
    + now right.
    + rewrite Hst, Z.eqb_refl, Hp. exact Ht.
Qed.

Lemma process_all_memory_bound incidents :
  forall a,
  Z.of_nat (List.length (memory a)) <= memory_size ->
  Z.of_nat (List.length (memory (process_all forward learn incidents a)))
  <= memory_size.
Proof.
  induction incidents as [|[env data] rest IH]; intros a Ha; simpl; [exact Ha|].
  apply IH.
  destruct (process_effect env data a) as ([->|[exp ->]] & _); [exact Ha|].
  apply deque_append_length; [unfold memory_size; lia|exact Ha].
Qed.

(** While the memory stays below [min_experiences] nothing is trained and
    epsilon stays as it is, however many incidents are processed. *)
Lemma process_all_epsilon incidents :
  forall a,
  Z.of_nat (List.length (memory a)) + Z.of_nat (List.length incidents)
  < min_experiences ->
  epsilon (process_all forward learn incidents a) = epsilon a.
Proof.
  induction incidents as [|[env data] rest IH]; intros a Ha; [reflexivity|].
  cbn [process_all]. cbn [List.length] in Ha.
  destruct (process_effect env data a) as (Hm & He & _).
  assert (Hlen : Z.of_nat (List.length
                             (memory (snd (process forward learn env data a))))
                 <= Z.of_nat (List.length (memory a)) + 1).
  { destruct Hm as [->|[exp ->]]; [lia|apply deque_append_grows]. }
  rewrite IH by lia.
  destruct He as [He|[Hge _]]; [exact He|lia].
Qed.

(** Between two multiples of [update_frequency] of the step counter the
    target network stays as it is, however many incidents are processed. *)
Lemma process_all_target incidents :
  forall a,
  0 <= steps a ->
  steps a mod update_frequency + Z.of_nat (List.length incidents)
  < update_frequency ->
  target_net (process_all forward learn incidents a) = target_net a.
Proof.
  unfold update_frequency.
  induction incidents as [|[env data] rest IH]; intros a H0 Ha; [reflexivity|].
  cbn [process_all]. cbn [List.length] in Ha.
  destruct (process_effect env data a) as (_ & _ & Hs & Ht).
  unfold update_frequency in Ht.
  set (a' := snd (process forward learn env data a)) in *.
  assert (Hkeep : target_net a' = target_net a).
  { rewrite Ht. destruct Hs as [Hs|Hs]; rewrite Hs.
    - replace (steps a =? steps a + 1) with false
        by (symmetry; apply Z.eqb_neq; lia).
      reflexivity.
    - replace ((steps a + 1) mod 100 =? 0) with false
        by (symmetry; apply Z.eqb_neq; Z.div_mod_to_equations; lia).
      now rewrite andb_false_r. }
  rewrite IH; [exact Hkeep| |].
  - destruct Hs as [Hs|Hs]; rewrite Hs; lia.
  - destruct Hs as [Hs|Hs]; rewrite Hs; [lia|].
    Z.div_mod_to_equations; lia.
Qed.

(* ================================================================= *)
(** ** The claims about the engine *)


(** C7: no method of the agent other than [process] touches the
    parameters of the target network: not a training step (which moves the
    policy network), not the choice of an action, its dispatch, the
    notifications, [initialize] with its load, nor [cleanup] with its save.
    A call of [process] leaves them as they are unless it reaches the step
    counter and the counter becomes a multiple of [update_frequency], and
    then they are the parameters of the policy network.  So between two
    multiples of [update_frequency] of the counter the target network keeps
    its parameters over any number of incidents. *)
Theorem target_changes_only_at_sync env data state action incident_id results a :
  target_net (snd (_train learn env a)) = target_net a
  /\ target_net (snd (_select_action forward env state a)) = target_net a
  /\ target_net (snd (_execute_action env action data a)) = target_net a
  /\ target_net (snd (_notify_agents env incident_id results a)) = target_net a
  /\ target_net (snd (initialize torch_load torch_load_optim env a)) = target_net a
  /\ target_net (snd (cleanup env a)) = target_net a
  /\ (let a' := snd (process forward learn env data a) in
      target_net a' =
        if (steps a' =? steps a + 1) && (steps a' mod update_frequency =? 0)
        then policy_net a' else target_net a)
  /\ (forall incidents,
         0 <= steps a ->
         steps a mod update_frequency + Z.of_nat (List.length incidents)
         < update_frequency ->
         target_net (process_all forward learn incidents a) = target_net a).
Proof.
  split; [apply train_frame|].
  split; [now rewrite select_action_frame|].
  split; [destruct (execute_action_ok env action data a) as (_&_&_&H&_); exact H|].
  split; [destruct (notify_agents_ok env incident_id results a) as (_&_&H&_); exact H|].
  split; [destruct (initialize_ok env a) as (_&_&H&_); exact H|].
  split; [destruct (cleanup_ok env a) as (_&_&H&_); exact H|].
  split; [apply process_effect|].
  intros; now apply process_all_target.
Qed.

(** C9, as the code has it: the dispatch of an action never raises and
    yields the failed outcome; a training step never raises, and one that
    fails is skipped with a log record, memory and epsilon as they were;
    notification, saving and loading never raise (state extraction and the
    reward are total functions).  [process] itself raises exactly what its
    body raises, after [handle_error] has logged it; and the body does
    raise whenever the decision record cannot be stored. *)
Theorem failures_caught_or_reraised env data action incident_id results a :
  (exists msg,
      fst (_execute_action env action data a)
      = Ok (VDict [("status", VStr "failed"); ("error", VStr msg)]))
  /\ _train learn env a =
       (Ok tt,
        if Z.of_nat (List.length (memory a)) <? batch_size then a
        else match train_batch learn env a with
             | Ok po =>
                 set_epsilon (set_optimizer (set_policy_net a (fst po)) (snd po))
                   (py_max epsilon_min (epsilon a * epsilon_decay)%float)
             | Raise e =>
                 set_logger a
                   (logger a
                    ++ [LogError ("Error training network: " ++ exn_str e)%string])
             end)
  /\ fst (_notify_agents env incident_id results a) = Ok tt
  /\ fst (_save_model_state env a) = Ok tt
  /\ fst (_load_model_state torch_load torch_load_optim env a) = Ok tt
  /\ fst (process forward learn env data a) = fst (process_body forward learn env data a)
  /\ logger (snd (process forward learn env data a)) =
       match fst (process_body forward learn env data a) with
       | Ok _ => logger (snd (process_body forward learn env data a))
       | Raise e =>
           logger (snd (process_body forward learn env data a))
           ++ [LogError ("Error in reinforcement_learning: " ++ exn_str e)%string;
               LogError "traceback.format_exc()"]
       end
  /\ (is_ok (db_call env "update_analysis_result") = false ->
      is_ok (fst (process forward learn env data a)) = false).
Proof.
  split; [apply execute_action_failed|].
  split; [apply train_eq|].
  split; [apply notify_agents_ok|].
  split; [apply save_model_state_ok|].
  split; [apply load_model_state_ok|].
  destruct (process_handler env data a) as (Hfst & _ & Hlog).
  split; [exact Hfst|]. split; [exact Hlog|].
  intros Hdb. rewrite Hfst. clear Hfst Hlog.
  unfold process_body.
  repeat match goal with
         | |- is_ok (fst (bind ?m ?k ?s)) = false =>
             let r := fresh "r" in
             let s' := fresh "s" in
             let E := fresh "E" in
             destruct (m s) as [[r|r] s'] eqn:E;
             [rewrite (bind_ok m k s r s' E)
             |rewrite (bind_raise m k s r s' E); reflexivity]
         end.
  exfalso.
  match goal with
  | H : lift (db_call env "update_analysis_result") _ = _ |- _ =>
      unfold lift in H; injection H as H _; rewrite H in Hdb; discriminate
  end.
Qed.

(** C10: whichever branch is taken, [_select_action] returns an index
    between 0 and [action_size], and [self.actions] has an entry for it.
    The random branch returns what [random.randrange(action_size)] gives;
    the network answers with one value per action. *)
Theorem select_action_in_range env state a :
  0 <= random_randrange env < action_size ->
  List.length (forward (policy_net a) state) = Z.to_nat action_size ->
  exists action_idx action,
    fst (_select_action forward env state a) = Ok action_idx
    /\ 0 <= action_idx < action_size
    /\ actions_getitem action_idx = Ok action.
Proof.
  intros Hk Hlen.
  assert (Hact : forall i, 0 <= i < action_size ->
                           exists action, actions_getitem i = Ok action).
  { intros i Hi. unfold action_size in Hi.
    assert (i = 0 \/ i = 1 \/ i = 2 \/ i = 3 \/ i = 4) as [->|[->|[->|[->| ->]]]]
      by lia; eexists; reflexivity. }
  unfold _select_action, bind, get, lift, ret.
  destruct (PrimFloat.ltb (epsilon a) (random_random env)).
  - destruct (forward (policy_net a) state) as [|v row] eqn:Hrow;
      [discriminate Hlen|].
    pose proof (torch_max_index (v :: row)) as Hi. rewrite Hlen in Hi.
    specialize (Hi ltac:(discriminate)).
    unfold torch_max_dim. simpl fst.
    assert (Hr : 0 <= Z.of_nat (snd (torch_max (v :: row))) < action_size) by lia.
    destruct (Hact _ Hr) as [action Haction]. eauto.
  - simpl. destruct (Hact _ Hk) as [action Haction]. eauto.
Qed.

(** X1: with epsilon equal to 0.0 and a draw of [random.random()] above
    0.0, [_select_action] does not depend on the draws and returns the
    index of the maximum of the action values, the lowest index on a
    tie. *)
Theorem greedy_when_epsilon_zero env env' state a :
  PrimFloat.eqb (epsilon a) 0.0%float = true ->
  PrimFloat.ltb 0.0%float (random_random env) = true ->
  PrimFloat.ltb 0.0%float (random_random env') = true ->
  forward (policy_net a) state <> [] ->
  no_nan (forward (policy_net a) state) ->
  exists i,
    fst (_select_action forward env state a) = Ok (Z.of_nat i)
    /\ fst (_select_action forward env' state a) = Ok (Z.of_nat i)
    /\ first_max (forward (policy_net a) state) i.
Proof.
  intros He Hr Hr' Hrow Hnan.
  apply eqb_leb in He.
  exists (snd (torch_max (forward (policy_net a) state))).
  unfold _select_action, bind, get, lift, ret.
  rewrite (leb_ltb_trans _ _ _ He Hr), (leb_ltb_trans _ _ _ He Hr').
  unfold torch_max_dim.
  destruct (forward (policy_net a) state) as [|v row] eqn:E; [congruence|].
  repeat split; try reflexivity; now apply torch_max_first_max.
Qed.

End Process.

(* ================================================================= *)
(** ** Concrete runs *)

Example extract_state_empty_bag :
  _extract_state (VDict []) = (zeros state_size, []).
Proof. reflexivity. Qed.

Example extract_state_flags_and_counts :
  fst (_extract_state
         (VDict [("threat_intelligence",
                  VDict [("matches", VList [VStr "m1"; VStr "m2"; VStr "m3"]);
                         ("confidence", VFloat 0.5%float)]);
                 ("user_context", VDict [("is_targeted", VBool true)])]))
  = zeros 10
    ++ [VFloat 0.0%float; VFloat 0.3%float; VFloat 0.0%float; VFloat 0.5%float]
    ++ zeros 4 ++ [VFloat 0.0%float; VFloat 1.0%float].
Proof. vm_compute. reflexivity. Qed.

Example torch_max_first_of_ties :
  torch_max [1.0; 3.0; 3.0; 2.0]%float = (3.0%float, 1%nat).
Proof. reflexivity. Qed.

Example pushes_keeps_the_last :
  pushes 3 [VInt 1; VInt 2; VInt 3; VInt 4; VInt 5] = [VInt 3; VInt 4; VInt 5].
Proof. reflexivity. Qed.

(** C5: a memory of capacity [C] (not negative: Python refuses a negative
    [maxlen]) never holds more than [C] experiences and
    holds the last [C] pushed, oldest first; after [C + 1] pushes the first
    experience pushed is gone and the size is [C]; a push into a full
    memory drops exactly the oldest one.  [process] touches the memory of
    the agent only by one such push, with capacity [memory_size] = 10000,
    so the memory of an agent never grows beyond it, whatever it
    processes. *)
Theorem replay_memory_bounded_fifo {A} (C : Z) (xs : list A) :
  0 <= C ->
  let m := pushes C xs in
  Z.of_nat (List.length m) <= C
  /\ m = skipn (List.length xs - Z.to_nat C) xs
  /\ (Z.of_nat (List.length xs) = C + 1 ->
      m = tl xs /\ Z.of_nat (List.length m) = C)
  /\ (forall x, Z.of_nat (List.length m) = C -> 0 < C ->
                pushes C (xs ++ [x]) = tl m ++ [x])
  /\ (forall Params Optim forward learn env data (a : Agent Params Optim),
         let a' := snd (process forward learn env data a) in
         memory a' = memory a
         \/ exists exp, memory a' = deque_append memory_size (memory a) exp)
  /\ (forall Params Optim forward learn incidents (p0 : Params) (o0 : Optim),
         Z.of_nat (List.length
                     (memory (process_all forward learn incidents (new_agent p0 o0))))
         <= memory_size).
Proof.
  intros HC m.
  assert (Hm : m = skipn (List.length xs - Z.to_nat C) xs)
    by (now apply pushes_last).
  split; [rewrite Hm, length_skipn; lia|].
  split; [exact Hm|].
  split.
  { intros Hlen. rewrite Hm.
    replace (List.length xs - Z.to_nat C)%nat with 1%nat by lia.
    split; [now destruct xs|].
    rewrite length_skipn. lia. }
  split.
  { intros x Hfull HC0. rewrite pushes_snoc.
    now apply deque_append_full. }
  split.
  { intros Params Optim forward learn env data a a'.
    destruct (process_effect forward learn env data a) as (Hmem & _).
    exact Hmem. }
  intros Params Optim forward learn incidents p0 o0.
  apply process_all_memory_bound. simpl. unfold memory_size. lia.
Qed.

Lemma replay_memory_bounded_fifo_witness :
  0 <= 2
  /\ pushes 2 [VInt 10; VInt 20; VInt 30] = [VInt 20; VInt 30]
  /\ Z.of_nat (List.length (pushes 2 [VInt 10; VInt 20; VInt 30])) = 2.
Proof.
  split; [lia|].
  destruct (replay_memory_bounded_fifo 2 [VInt 10; VInt 20; VInt 30] ltac:(lia))
    as (_ & _ & H & _).
  exact (H eq_refl).
Defined.



Lemma target_changes_only_at_sync_witness :
  let incidents := [(calm_env 0.5%float 3, VDict []);
                    (calm_env 0.25%float 0, bag_null_history)] in
  let a := set_steps (set_target_net row_agent [9.0; 9.0; 9.0; 9.0; 9.0]%float) 97 in
  0 <= steps a
  /\ steps a mod update_frequency + Z.of_nat (List.length incidents)
     < update_frequency
  /\ target_net (process_all row_forward row_learn incidents a) = target_net a.
Proof.
  cbv zeta. split; [discriminate|]. split; [reflexivity|].
  destruct (target_changes_only_at_sync row_forward row_learn row_load row_load_optim
              (calm_env 0.5%float 3) (VDict []) zero_state "no_action" VNone
              (mkResponse VNone "" "no_action" 0.0%float 0.0%float
                 (mkMetrics 1.0%float 0 0 0))
              (set_steps (set_target_net row_agent [9.0; 9.0; 9.0; 9.0; 9.0]%float) 97))
    as (_ & _ & _ & _ & _ & _ & _ & H).
  apply H; [discriminate|reflexivity].
Defined.

(** C8 on the code: [random.random()] may return 0.0, and [0.0 > 0.0] is
    false, so with epsilon 0.0 the random branch is taken at that draw; two
    runs on the same state and parameters return 4 and 1, and 1 is the
    index of the maximum. *)
Theorem epsilon_zero_not_deterministic :
  PrimFloat.eqb (epsilon greedy_agent) 0.0%float = true
  /\ fst (_select_action row_forward (calm_env 0.0%float 4) zero_state greedy_agent)
     = Ok 4
  /\ fst (_select_action row_forward (calm_env 0.5%float 4) zero_state greedy_agent)
     = Ok 1
  /\ snd (torch_max (row_forward (policy_net greedy_agent) zero_state)) = 1%nat.
Proof. repeat split; vm_compute; reflexivity. Qed.

Lemma greedy_when_epsilon_zero_witness :
  exists i,
    fst (_select_action row_forward (calm_env 0.5%float 4) zero_state greedy_agent)
    = Ok (Z.of_nat i)
    /\ fst (_select_action row_forward (calm_env 0.25%float 2) zero_state greedy_agent)
       = Ok (Z.of_nat i)
    /\ first_max (row_forward (policy_net greedy_agent) zero_state) i.
Proof.
  apply (greedy_when_epsilon_zero row_forward).
  - reflexivity.
  - reflexivity.
  - reflexivity.
  - discriminate.
  - repeat constructor.
Defined.

(** C9 fails as stated: when the decision record cannot be stored,
    [process] logs the exception and raises it to its caller; so it does
    when an analysis score is a text, which no tensor accepts. *)
Lemma process_raises :
  fst (process row_forward row_learn store_down_env (VDict []) row_agent)
  = Raise (Exn "HTTPStatusError" "503 Service Unavailable")
  /\ is_ok (fst (process row_forward row_learn (calm_env 0.5%float 3)
                   bag_text_score row_agent)) = false.
Proof. split; vm_compute; reflexivity. Qed.

Lemma failures_caught_or_reraised_witness :
  is_ok (db_call store_down_env "update_analysis_result") = false
  /\ is_ok (fst (process row_forward row_learn store_down_env (VDict []) row_agent))
     = false.
Proof.
  split; [reflexivity|].
  destruct (failures_caught_or_reraised row_forward row_learn row_load row_load_optim
              store_down_env (VDict []) "no_action" VNone
              (mkResponse VNone "" "no_action" 0.0%float 0.0%float
                 (mkMetrics 1.0%float 0 0 0))
              row_agent) as (_ & _ & _ & _ & _ & _ & _ & H).
  apply H. reflexivity.
Defined.

Lemma select_action_in_range_witness :
  exists action_idx action,
    fst (_select_action row_forward (calm_env 0.5%float 3) zero_state row_agent)
    = Ok action_idx
    /\ 0 <= action_idx < action_size
    /\ actions_getitem action_idx = Ok action.
Proof.
  apply (select_action_in_range row_forward).
  - simpl. unfold action_size. lia.
  - reflexivity.
Defined.

(** C3 on the code: the agent calls [db.save_model_state] and
    [db.get_model_state], which class [Database] does not define.  Saving
    an engine at 250 steps with epsilon 0.5 stores nothing, and a fresh
    engine that loads afterwards stays at 0 steps with epsilon 1.0. *)
Theorem checkpoint_not_restored :
  let env := calm_env 0.5%float 3 in
  let saved := snd (_save_model_state env trained_agent) in
  let loaded :=
    snd (_load_model_state row_load row_load_optim env
           (new_agent [0.0; 0.0; 0.0; 0.0; 0.0]%float tt)) in
  steps trained_agent = 250
  /\ epsilon trained_agent = 0.5%float
  /\ logger saved =
       [LogError "Error saving model state: 'Database' object has no attribute 'save_model_state'"]
  /\ logger loaded =
       [LogError "Error loading model state: 'Database' object has no attribute 'get_model_state'"]
  /\ steps loaded = 0
  /\ episodes loaded = 0
  /\ epsilon loaded = 1.0%float
  /\ policy_net loaded = [0.0; 0.0; 0.0; 0.0; 0.0]%float.
Proof. cbv zeta. repeat split. Qed.

(** A training step moves the policy network and not the target network;
    the hundredth step copies the one into the other. *)
Example training_moves_policy_only :
  let a := set_memory row_agent (repeat zero_experience 64) in
  let a' := snd (_train row_learn (calm_env 0.5%float 3) a) in
  policy_net a' = map (fun q => (q + 1.0)%float) (policy_net a)
  /\ target_net a' = target_net a
  /\ epsilon a' = 0.995%float.
Proof. cbv zeta. repeat split; vm_compute; reflexivity. Qed.

Example hundredth_step_synchronises :
  let a := set_steps (set_target_net row_agent [9.0; 9.0; 9.0; 9.0; 9.0]%float) 99 in
  let a' := snd (process row_forward row_learn (calm_env 0.5%float 3) (VDict []) a) in
  steps a' = 100 /\ target_net a' = policy_net a'
  /\ target_net a = [9.0; 9.0; 9.0; 9.0; 9.0]%float.
Proof. cbv zeta. repeat split; vm_compute; reflexivity. Qed.

(* ================================================================= *)
(** ** More on the reward and on the state vector *)

(** Whatever the result is, the reward is 0.0 (the [except] branch) or
    what the seven conditions accumulate. *)
Lemma reward_terms_cases (result : value) :
  (exists e, reward_terms result = Raise e)
  \/ exists success failed prevented false_pos positive negative late,
       reward_terms result
       = Ok (reward_steps success failed prevented false_pos positive negative late).
Proof.
  destruct result as [| | | | | |d];
    try (left; eexists; reflexivity).
  unfold reward_terms, res_bind, py_get.
  set (status := match assoc "status" d with Some v => v | None => VNone end).
  set (pa := match assoc "prevented_attack" d with Some v => v | None => VNone end).
  set (fp := match assoc "false_positive" d with Some v => v | None => VNone end).
  set (uf := match assoc "user_feedback" d with Some v => v | None => VNone end).
  set (pt := match assoc "processing_time" d with Some v => v | None => VInt 0 end).
  replace (match assoc "status" d with Some v => Ok v | None => Ok VNone end)
    with (Ok status) by (unfold status; now destruct (assoc "status" d)).
  replace (match assoc "prevented_attack" d with Some v => Ok v | None => Ok VNone end)
    with (Ok pa) by (unfold pa; now destruct (assoc "prevented_attack" d)).
  replace (match assoc "false_positive" d with Some v => Ok v | None => Ok VNone end)
    with (Ok fp) by (unfold fp; now destruct (assoc "false_positive" d)).
  replace (match assoc "user_feedback" d with Some v => Ok v | None => Ok VNone end)
    with (Ok uf) by (unfold uf; now destruct (assoc "user_feedback" d)).
  replace (match assoc "processing_time" d with Some v => Ok v | None => Ok (VInt 0) end)
    with (Ok pt) by (unfold pt; now destruct (assoc "processing_time" d)).
  destruct (py_gt pt 60) as [late|e] eqn:Elate.
  - right.
    exists (py_eq_str status "success"), (py_eq_str status "failed"),
      (py_truthy pa), (py_truthy fp),
      (py_eq_str uf "positive"), (py_eq_str uf "negative"), late.
    unfold reward_steps.
    destruct (py_eq_str status "success"), (py_eq_str status "failed"),
      (py_eq_str uf "positive"), (py_eq_str uf "negative"); reflexivity.
  - left. exists e.
    destruct (py_eq_str status "success"), (py_eq_str status "failed"),
      (py_eq_str uf "positive"), (py_eq_str uf "negative"); reflexivity.
Qed.

(** X2: whatever the result of the action is (a record of any shape, or
    no dictionary at all), the reward is a number between -3.6 and 3.5:
    the sum is not clamped, but its terms bound it. *)
Theorem reward_within_bounds (result : value) :
  PrimFloat.leb (-3.6)%float (fst (_calculate_reward result)) = true
  /\ PrimFloat.leb (fst (_calculate_reward result)) 3.5%float = true.
Proof.
  unfold _calculate_reward.
  destruct (reward_terms_cases result)
    as [[e ->]|(b1 & b2 & b3 & b4 & b5 & b6 & b7 & ->)]; simpl fst.
  - split; reflexivity.
  - destruct b1, b2, b3, b4, b5, b6, b7; split; reflexivity.
Qed.

(** X3: the state encoder reads the five categories at the top level of
    the bag and nothing else: a bag without them encodes to the all-zero
    vector, and logs nothing, whatever else it carries.  Such is the
    payload of the system test, which nests the analyses under
    [analysis_results]. *)
Theorem state_of_bag_without_categories (d : list (string * value)) :
  assoc "email_analysis" d = None ->
  assoc "domain_analysis" d = None ->
  assoc "threat_intelligence" d = None ->
  assoc "historical_data" d = None ->
  assoc "user_context" d = None ->
  _extract_state (VDict d) = (zeros state_size, []).
Proof.
  intros H1 H2 H3 H4 H5.
  destruct (missing_category_defaults d) as (E1 & E2 & E3 & E4 & E5).
  unfold _extract_state, extract_features, res_bind.
  rewrite (E1 H1), (E2 H2), (E3 H3), (E4 H4), (E5 H5). reflexivity.
Qed.

Lemma state_of_bag_without_categories_witness :
  _extract_state (test_payload (VStr "incident-1") (VDict [("risk_score", VFloat 0.9%float)]))
  = (zeros state_size, []).
Proof.
  apply state_of_bag_without_categories; reflexivity.
Defined.

Lemma res_map_length {A B} (f : A -> res B) (l : list A) :
  forall l', res_map f l = Ok l' -> List.length l' = List.length l.
Proof.
  induction l as [|x l IH]; intros l' H; simpl in H.
  - now injection H as <-.
  - destruct (f x) as [y|e]; [|discriminate]. cbn [res_bind] in H.
    destruct (res_map f l) as [ys|e]; [|discriminate]. cbn [res_bind] in H.
    injection H as <-. simpl. f_equal. now apply IH.
Qed.

Lemma fit_state_length state :
  List.length (fit_state state) = Z.to_nat state_size.
Proof.
  unfold fit_state, zeros, state_size.
  destruct (Z.of_nat (List.length state) <? 20) eqn:H1.
  - apply Z.ltb_lt in H1. rewrite length_app, repeat_length. lia.
  - destruct (20 <? Z.of_nat (List.length state)) eqn:H2.
    + apply Z.ltb_lt in H2. rewrite length_firstn. lia.
    + apply Z.ltb_ge in H1. apply Z.ltb_ge in H2. lia.
Qed.

(** Whatever the bag holds, [_extract_state] returns [state_size]
    entries. *)
Lemma extract_state_length data :
  List.length (fst (_extract_state data)) = Z.to_nat state_size.
Proof.
  unfold _extract_state. destruct (extract_features data) as [state|e]; cbn [fst].
  - apply fit_state_length.
  - unfold zeros. now rewrite repeat_length.
Qed.

(* ================================================================= *)
(** ** One incident, step by step *)

Lemma failed_outcome_reward msg :
  _calculate_reward (failed_outcome msg) = ((-1.0)%float, []).
Proof. reflexivity. Qed.

Lemma failed_outcome_state msg :
  _extract_state (failed_outcome msg) = (zeros state_size, []).
Proof. reflexivity. Qed.

Section Incident.

Context {Params Optim : Type}.
Context (forward : Params -> list float -> list float).
Context (learn : Params -> Params -> Optim ->
                 list (list float) -> list Z -> list float ->
                 list (list float) -> res (Params * Optim)).

Local Abbreviation Agent := (Agent Params Optim).
Implicit Types (a b c : Agent) (env : Env).

(** The choice of an action reads epsilon and the policy network only. *)
Lemma select_action_reads env state a b :
  epsilon b = epsilon a -> policy_net b = policy_net a ->
  fst (_select_action forward env state b) = fst (_select_action forward env state a).
Proof.
  unfold _select_action, bind, get, lift, ret. intros -> ->.
  destruct (PrimFloat.ltb _ _); [|reflexivity].
  now destruct (torch_max_dim _).
Qed.

Lemma execute_action_outcome env action data a :
  exists msg,
    fst (_execute_action env action data a) = Ok (failed_outcome msg).
Proof. apply execute_action_failed. Qed.

(** The run of the body of [process], stage by stage: what it raises and
    where, the experience it stores, and the response it builds. *)
Lemma process_body_run env data a :
  let out := process_body forward learn env data a in
  match py_get data "incident_id" VNone,
        FloatTensor (fst (_extract_state data)) with
  | Raise e, _ => fst out = Raise e /\ same_learning a (snd out)
  | Ok _, Raise e => fst out = Raise e /\ same_learning a (snd out)
  | Ok incident_id, Ok state_tensor =>
      match fst (_select_action forward env state_tensor a) with
      | Raise e => fst out = Raise e /\ same_learning a (snd out)
      | Ok action_idx =>
          match actions_getitem action_idx with
          | Raise e => fst out = Raise e /\ same_learning a (snd out)
          | Ok action =>
              exists a1,
                same_learning
                  (set_memory a (deque_append memory_size (memory a)
                                   (stored_experience data action_idx))) a1
                /\ let a2 := after_training learn env a1 in
                   policy_net (snd out) = policy_net a2
                   /\ optimizer (snd out) = optimizer a2
                   /\ memory (snd out) = memory a2
                   /\ epsilon (snd out) = epsilon a2
                   /\ episodes (snd out) = episodes a2
                   /\ steps (snd out) = steps a2 + 1
                   /\ fst out =
                        match torch_max_dim
                                (forward (policy_net (snd out)) state_tensor),
                              db_call env "update_analysis_result" with
                        | Raise e, _ => Raise e
                        | Ok _, Raise e => Raise e
                        | Ok confidence, Ok _ =>
                            Ok (mkResponse incident_id (utcnow env) action
                                  (fst confidence) (-1.0)%float
                                  (mkMetrics (epsilon (snd out))
                                     (Z.of_nat (List.length (memory (snd out))))
                                     (steps (snd out)) (episodes (snd out))))
                        end
          end
      end
  end.
Proof.
  intros out. remember out as o eqn:Hout. unfold out in Hout. clear out.
  unfold process_body in Hout.
  destruct (py_get data "incident_id" VNone) as [incident_id|e] eqn:E1;
    [rewrite (bind_ok _ _ a incident_id a) in Hout by reflexivity
    |rewrite (bind_raise _ _ a e a) in Hout by reflexivity;
     subst o; split; [reflexivity|apply same_learning_refl]].
  set (a0 := set_logger a (logger a ++ snd (_extract_state data))).
  assert (H0 : same_learning a a0) by apply same_learning_log.
  rewrite (bind_ok _ _ a (fst (_extract_state data)) a0) in Hout by reflexivity.
  destruct (FloatTensor (fst (_extract_state data))) as [state_tensor|e] eqn:E2;
    [rewrite (bind_ok _ _ a0 state_tensor a0) in Hout by reflexivity
    |rewrite (bind_raise _ _ a0 e a0) in Hout by reflexivity;
     subst o; split; [reflexivity|exact H0]].
  rewrite <- (select_action_reads env state_tensor a a0) by reflexivity.
  pose proof (select_action_frame forward env state_tensor a0) as Hsel.
  destruct (_select_action forward env state_tensor a0) as [[action_idx|e] a0'] eqn:E3;
    simpl in Hsel; subst a0'; cbn [fst];
    [rewrite (bind_ok _ _ a0 action_idx a0) in Hout by exact E3
    |rewrite (bind_raise _ _ a0 e a0) in Hout by exact E3;
     subst o; split; [reflexivity|exact H0]].
  destruct (actions_getitem action_idx) as [action|e] eqn:E4;
    [rewrite (bind_ok _ _ a0 action a0) in Hout by reflexivity
    |rewrite (bind_raise _ _ a0 e a0) in Hout by reflexivity;
     subst o; split; [reflexivity|exact H0]].
  destruct (execute_action_outcome env action data a0) as (msg & Hres).
  destruct (execute_action_ok env action data a0) as (result & Hres' & Hex).
  destruct (_execute_action env action data a0) as [[result'|e] a1] eqn:E5;
    simpl in Hres, Hres', Hex; [|discriminate].
  injection Hres as ->. clear Hres' result.
  rewrite (bind_ok _ _ a0 (failed_outcome msg) a1) in Hout by exact E5.
  rewrite (bind_ok _ _ a1 (-1.0)%float a1) in Hout
    by (unfold logged; rewrite failed_outcome_reward; simpl;
        rewrite app_nil_r; now destruct a1).
  rewrite (bind_ok _ _ a1 (zeros state_size) a1) in Hout
    by (unfold logged; rewrite failed_outcome_state; simpl;
        rewrite app_nil_r; now destruct a1).
  fold (stored_experience data action_idx) in Hout.
  rewrite (bind_ok _ _ _ tt _) in Hout by reflexivity.
  set (a1' := set_memory a1 _) in Hout.
  rewrite (bind_ok _ _ a1' a1' a1') in Hout by reflexivity.
  exists a1'.
  assert (H1 : same_learning
                 (set_memory a (deque_append memory_size (memory a)
                                  (stored_experience data action_idx))) a1').
  { destruct (same_learning_trans _ _ _ H0 Hex) as (?&?&?&Hm&?&?&?&[l Hl]).
    unfold same_learning, a1'; simpl. rewrite Hm. repeat split; auto.
    now exists l. }
  split; [exact H1|].
  set (a2 := after_training learn env a1').
  rewrite (bind_ok _ _ a1' tt a2) in Hout
    by (unfold a2, after_training;
        destruct (min_experiences <=? _); [now rewrite train_eq|reflexivity]).
  set (a3 := set_steps a2 (steps a2 + 1)).
  rewrite (bind_ok _ _ a2 tt a3) in Hout by reflexivity.
  rewrite (bind_ok _ _ a3 a3 a3) in Hout by reflexivity.
  set (a4 := if steps a3 mod update_frequency =? 0
             then set_target_net a3 (policy_net a3) else a3).
  rewrite (bind_ok _ _ a3 tt a4) in Hout
    by (unfold a4; now destruct (steps a3 mod update_frequency =? 0)).
  rewrite (bind_ok _ _ a4 a4 a4) in Hout by reflexivity.
  assert (H4 : policy_net a4 = policy_net a2 /\ optimizer a4 = optimizer a2
               /\ memory a4 = memory a2 /\ epsilon a4 = epsilon a2
               /\ episodes a4 = episodes a2 /\ steps a4 = steps a2 + 1).
  { unfold a4, a3; simpl.
    destruct ((steps a2 + 1) mod update_frequency =? 0); simpl; repeat split. }
  destruct H4 as (Hp & Ho & Hm & He & Hep & Hs).
  cbv zeta.
  destruct (torch_max_dim (forward (policy_net a4) state_tensor)) as [confidence|e] eqn:E6;
    [rewrite (bind_ok _ _ a4 confidence a4) in Hout by reflexivity
    |rewrite (bind_raise _ _ a4 e a4) in Hout by reflexivity;
     subst o; cbn [fst snd]; rewrite E6; auto 10].
  destruct (db_call env "update_analysis_result") as [stored|e] eqn:E7;
    [rewrite (bind_ok _ _ a4 stored a4) in Hout by reflexivity
    |rewrite (bind_raise _ _ a4 e a4) in Hout by reflexivity;
     subst o; cbn [fst snd]; rewrite E6; auto 10].
  match type of Hout with
  | context [_notify_agents env ?i ?r] =>
      destruct (notify_agents_ok env i r a4) as [Hn1 Hn2];
      destruct (_notify_agents env i r a4) as [[[]|e] a5] eqn:E8
  end; simpl in Hn1, Hn2; [|discriminate].
  rewrite (bind_ok _ _ a4 tt a5) in Hout by exact E8.
  subst o; cbn [fst snd ret].
  destruct Hn2 as (Hp5&_&Ho5&Hm5&He5&Hs5&Hep5&_).
  rewrite Hp5, Ho5, Hm5, He5, Hs5, Hep5, E6.
  auto 10.
Qed.

Lemma process_run env data a :
  let body := process_body forward learn env data a in
  let out := process forward learn env data a in
  fst out = fst body
  /\ policy_net (snd out) = policy_net (snd body)
  /\ optimizer (snd out) = optimizer (snd body)
  /\ memory (snd out) = memory (snd body)
  /\ epsilon (snd out) = epsilon (snd body)
  /\ steps (snd out) = steps (snd body)
  /\ episodes (snd out) = episodes (snd body).
Proof.
  destruct (process_handler forward learn env data a)
    as (Hfst & (Hp & _ & Ho & Hm & He & Hs & Hep & _) & _).
  cbv zeta. auto 10.
Qed.

Lemma after_training_memory env a1 :
  memory (after_training learn env a1) = memory a1
  /\ steps (after_training learn env a1) = steps a1
  /\ episodes (after_training learn env a1) = episodes a1.
Proof.
  destruct (after_training_frame learn env a1) as (_ & Hm & Hs & He & _). auto.
Qed.

(** What a call of [process] leaves in the memory. *)
Lemma process_memory env data a :
  let a' := snd (process forward learn env data a) in
  memory a' = memory a
  \/ exists action_idx action state_tensor,
       actions_getitem action_idx = Ok action
       /\ FloatTensor (fst (_extract_state data)) = Ok state_tensor
       /\ memory a' = deque_append memory_size (memory a)
                        (stored_experience data action_idx).
Proof.
  intros a'.
  destruct (process_run env data a) as (_ & _ & _ & Hm & _). fold a' in Hm.
  rewrite Hm. clear Hm a'.
  pose proof (process_body_run env data a) as H. cbv zeta in H.
  destruct (py_get data "incident_id" VNone);
    [|left; now destruct H as (_ & _ & _ & _ & Hm & _)].
  destruct (FloatTensor (fst (_extract_state data))) as [t|];
    [|left; now destruct H as (_ & _ & _ & _ & Hm & _)].
  destruct (fst (_select_action forward env t a)) as [idx|];
    [|left; now destruct H as (_ & _ & _ & _ & Hm & _)].
  destruct (actions_getitem idx) as [action|] eqn:E;
    [|left; now destruct H as (_ & _ & _ & _ & Hm & _)].
  destruct H as (a1 & H1 & _ & _ & Hm & _).
  right. exists idx, action, t. split; [exact E|]. split; [reflexivity|].
  rewrite Hm. destruct (after_training_memory env a1) as (-> & _).
  now destruct H1 as (_ & _ & _ & -> & _).
Qed.

Lemma records_failure_append d e :
  Forall records_failure d -> records_failure e ->
  Forall records_failure (deque_append memory_size d e).
Proof.
  intros Hd He. unfold deque_append.
  destruct (memory_size =? 0); [exact Hd|].
  destruct (Z.of_nat (List.length d) <? memory_size).
  - apply Forall_app. split; [exact Hd|]. now constructor.
  - apply Forall_app. split; [|now constructor].
    destruct d; [constructor|]. now inversion Hd.
Qed.

Lemma process_all_records_failure incidents :
  forall a,
  Forall records_failure (memory a) ->
  Forall records_failure (memory (process_all forward learn incidents a)).
Proof.
  induction incidents as [|[env data] rest IH]; intros a Ha; [exact Ha|].
  cbn [process_all]. apply IH.
  destruct (process_memory env data a) as [->|(idx & action & t & _ & _ & ->)];
    [exact Ha|].
  apply records_failure_append; [exact Ha|]. now split.
Qed.

(** X4: whatever the incidents and whatever the collaborators answer, the
    replay memory of an agent only ever holds experiences with reward -1.0
    and an all-zero next state, and every response reports the reward
    -1.0: the result of an action is awaited through
    [db.get_latest_action_result], which class [Database] does not define,
    so that every outcome is the failed record. *)
Theorem memory_records_failures_only incidents (p0 : Params) (o0 : Optim) env data a :
  Forall records_failure
         (memory (process_all forward learn incidents (new_agent p0 o0)))
  /\ match fst (process forward learn env data a) with
     | Ok response => r_reward response = (-1.0)%float
     | Raise _ => True
     end.
Proof.
  split; [apply process_all_records_failure; constructor|].
  destruct (process_run env data a) as (-> & _).
  pose proof (process_body_run env data a) as H. cbv zeta in H.
  destruct (py_get data "incident_id" VNone); [|now destruct H as [-> _]].
  destruct (FloatTensor (fst (_extract_state data))) as [t|];
    [|now destruct H as [-> _]].
  destruct (fst (_select_action forward env t a)) as [idx|];
    [|now destruct H as [-> _]].
  destruct (actions_getitem idx) as [action|]; [|now destruct H as [-> _]].
  destruct H as (a1 & _ & _ & _ & _ & _ & _ & _ & ->).
  destruct (torch_max_dim _); [|exact I].
  now destruct (db_call env "update_analysis_result").
Qed.

Lemma actions_getitem_in_range i :
  0 <= i < action_size -> exists action, actions_getitem i = Ok action.
Proof.
  unfold action_size. intros Hi.
  assert (i = 0 \/ i = 1 \/ i = 2 \/ i = 3 \/ i = 4) as [->|[->|[->|[->| ->]]]]
    by lia; eexists; reflexivity.
Qed.

(** The index chosen for a network that answers with one value per
    action. *)
Lemma select_action_index env state a :
  0 <= random_randrange env < action_size ->
  List.length (forward (policy_net a) state) = Z.to_nat action_size ->
  exists action_idx,
    fst (_select_action forward env state a) = Ok action_idx
    /\ 0 <= action_idx < action_size.
Proof.
  intros Hk Hlen.
  unfold _select_action, bind, get, lift, ret.
  destruct (PrimFloat.ltb (epsilon a) (random_random env)); [|simpl; eauto].
  destruct (forward (policy_net a) state) as [|v row] eqn:Hrow;
    [discriminate Hlen|].
  pose proof (torch_max_index (v :: row)) as Hi. rewrite Hlen in Hi.
  specialize (Hi ltac:(discriminate)).
  assert (Hr : 0 <= Z.of_nat (snd (torch_max (v :: row))) < action_size) by lia.
  unfold torch_max_dim. simpl fst. eauto.
Qed.

(** A training step hands on a network of the shape it found. *)
Lemma after_training_policy (shaped : Params -> Prop) env a1 :
  (forall p t o ss acts rs ns po,
      shaped p -> learn p t o ss acts rs ns = Ok po -> shaped (fst po)) ->
  shaped (policy_net a1) ->
  shaped (policy_net (after_training learn env a1)).
Proof.
  intros Hlearn H1. unfold after_training.
  destruct (min_experiences <=? _); [|exact H1].
  rewrite train_eq. simpl snd.
  destruct (Z.of_nat (List.length (memory a1)) <? batch_size); [exact H1|].
  destruct (train_batch learn env a1) as [po|e] eqn:E; simpl; [|exact H1].
  unfold train_batch, res_bind in E.
  destruct (FloatTensor2 _); [|discriminate].
  destruct (FloatTensor2 _); [|discriminate].
  eapply Hlearn; eauto.
Qed.

(** X5: when [random.randrange] answers within the catalog and the
    networks keep answering the state of the bag with one value per
    action (which a training step must not change), a call of
    [process] fails in three places only, in this order: the bag is not a
    dictionary, an entry of the state vector is not a number, the decision
    record cannot be stored.  Otherwise it returns a response that names
    an action of the catalog and reports the reward -1.0, the incremented
    step counter and the size of the memory; the experience is stored and
    the counter is incremented even when storing the record fails. *)
Theorem process_outcome (shaped : Params -> Prop) env data a :
  (forall p state_tensor,
      shaped p ->
      FloatTensor (fst (_extract_state data)) = Ok state_tensor ->
      List.length (forward p state_tensor) = Z.to_nat action_size) ->
  (forall p t o ss acts rs ns po,
      shaped p -> learn p t o ss acts rs ns = Ok po -> shaped (fst po)) ->
  shaped (policy_net a) ->
  0 <= random_randrange env < action_size ->
  let out := process forward learn env data a in
  shaped (policy_net (snd out))
  /\ match py_get data "incident_id" VNone,
           FloatTensor (fst (_extract_state data)),
           db_call env "update_analysis_result" with
     | Raise e, _, _ => fst out = Raise e /\ steps (snd out) = steps a
     | Ok _, Raise e, _ => fst out = Raise e /\ steps (snd out) = steps a
     | Ok _, Ok _, Raise e =>
         fst out = Raise e
         /\ steps (snd out) = steps a + 1
         /\ exists action_idx,
              memory (snd out) = deque_append memory_size (memory a)
                                   (stored_experience data action_idx)
     | Ok incident_id, Ok _, Ok _ =>
         exists response action_idx,
           fst out = Ok response
           /\ r_incident_id response = incident_id
           /\ actions_getitem action_idx = Ok (r_action_taken response)
           /\ r_reward response = (-1.0)%float
           /\ m_total_steps (r_metrics response) = steps a + 1
           /\ m_total_episodes (r_metrics response) = episodes a
           /\ m_epsilon (r_metrics response) = epsilon (snd out)
           /\ m_memory_size (r_metrics response)
              = Z.of_nat (List.length (memory (snd out)))
           /\ steps (snd out) = steps a + 1
           /\ memory (snd out) = deque_append memory_size (memory a)
                                   (stored_experience data action_idx)
     end.
Proof.
  intros Hshape Hlearn Ha Hk out.
  destruct (process_run env data a) as (Hf & Hp & _ & Hm & He & Hs & Hep).
  fold out in Hf, Hp, Hm, He, Hs, Hep.
  rewrite Hf, Hp, Hm, He, Hs. clear Hf.
  pose proof (process_body_run env data a) as H. cbv zeta in H.
  destruct (py_get data "incident_id" VNone) as [incident_id|e0].
  2:{ destruct H as (-> & Hp' & _ & _ & _ & _ & Hs' & _).
      rewrite Hp', Hs'. auto. }
  destruct (FloatTensor (fst (_extract_state data))) as [t|e1] eqn:Et.
  2:{ destruct H as (-> & Hp' & _ & _ & _ & _ & Hs' & _).
      rewrite Hp', Hs'. now destruct (db_call env "update_analysis_result"). }
  destruct (select_action_index env t a Hk (Hshape _ t Ha eq_refl))
    as (idx & Hsel & Hidx).
  destruct (actions_getitem_in_range idx Hidx) as [action Hact].
  rewrite Hsel, Hact in H.
  destruct H as (a1 & H1 & Hp2 & _ & Hm2 & He2 & Hep2 & Hs2 & Hout).
  destruct (after_training_memory env a1) as (Hm1 & Hs1 & Hep1).
  destruct H1 as (Hp1 & _ & _ & Hma & _ & Hsa & Hepa & _).
  simpl in Hp1, Hma, Hsa, Hepa.
  assert (Hsh : shaped (policy_net (snd (process_body forward learn env data a)))).
  { rewrite Hp2. apply after_training_policy; [exact Hlearn|]. now rewrite Hp1. }
  split; [exact Hsh|].
  assert (Hmem : memory (snd (process_body forward learn env data a))
                 = deque_append memory_size (memory a) (stored_experience data idx))
    by (now rewrite Hm2, Hm1, Hma).
  assert (Hst : steps (snd (process_body forward learn env data a)) = steps a + 1)
    by (now rewrite Hs2, Hs1, Hsa).
  pose proof (Hshape _ t Hsh eq_refl) as Hlen.
  destruct (forward (policy_net (snd (process_body forward learn env data a))) t)
    as [|v row] eqn:Erow; [discriminate Hlen|].
  cbn [torch_max_dim] in Hout.
  destruct (db_call env "update_analysis_result") as [stored|e2].
  - eexists _, idx. split; [exact Hout|].
    cbn [r_incident_id r_action_taken r_reward r_metrics m_total_steps
         m_total_episodes m_epsilon m_memory_size].
    rewrite Hep2, Hep1, Hepa.
    repeat split; try assumption; try reflexivity.
  - split; [exact Hout|]. split; [exact Hst|]. now exists idx.
Qed.

(** [max(epsilon_min, x)] is at least the floor, whatever [x] is (a NaN
    included). *)
Lemma py_max_floor (x : float) :
  PrimFloat.leb epsilon_min (py_max epsilon_min x) = true.
Proof.
  unfold py_max. destruct (PrimFloat.ltb epsilon_min x) eqn:E.
  - now apply ltb_leb.
  - reflexivity.
Qed.

Lemma process_all_epsilon_floor incidents :
  forall a,
  PrimFloat.leb epsilon_min (epsilon a) = true ->
  PrimFloat.leb epsilon_min (epsilon (process_all forward learn incidents a)) = true.
Proof.
  induction incidents as [|[env data] rest IH]; intros a Ha; [exact Ha|].
  cbn [process_all]. apply IH.
  destruct (process_effect forward learn env data a) as (_ & [->|[_ ->]] & _);
    [exact Ha|apply py_max_floor].
Qed.

(** X6: the exploration rate of an agent never falls below the floor 0.01
    (and is never a NaN), whatever it processes and however its training
    steps end: a new agent starts at 1.0, and an agent whose rate is at
    least the floor keeps it so. *)
Theorem epsilon_never_below_floor incidents (p0 : Params) (o0 : Optim) a :
  PrimFloat.leb epsilon_min
    (epsilon (process_all forward learn incidents (new_agent p0 o0))) = true
  /\ (PrimFloat.leb epsilon_min (epsilon a) = true ->
      PrimFloat.leb epsilon_min
        (epsilon (process_all forward learn incidents a)) = true).
Proof.
  split; [|apply process_all_epsilon_floor].
  apply process_all_epsilon_floor. reflexivity.
Qed.

Lemma ltb_asym (x y : float) :
  PrimFloat.ltb x y = true -> PrimFloat.ltb y x = false.
Proof.
  rewrite !ltb_spec. unfold SFltb. rewrite (SFcompare_antisym (Prim2SF x)).
  now destruct (SFcompare (Prim2SF x) (Prim2SF y)) as [[]|].
Qed.

(** X7: a new agent explores only.  Over its first 999 incidents (one
    less than [min_experiences]) nothing is trained and epsilon stays 1.0,
    so for every draw of [random.random()], which is below 1.0, the action
    it chooses next is the draw of [random.randrange]: the policy network
    is not consulted for the choice. *)
Theorem new_agent_explores_only incidents (p0 : Params) (o0 : Optim) env state :
  Z.of_nat (List.length incidents) < min_experiences ->
  PrimFloat.ltb (random_random env) 1.0%float = true ->
  fst (_select_action forward env state
         (process_all forward learn incidents (new_agent p0 o0)))
  = Ok (random_randrange env).
Proof.
  intros Hn Hr.
  unfold _select_action, bind, get, lift, ret.
  rewrite process_all_epsilon by (simpl; lia).
  change (epsilon (new_agent p0 o0)) with 1.0%float.
  now rewrite (ltb_asym _ _ Hr).
Qed.

Lemma process_all_counters incidents :
  forall a,
  episodes (process_all forward learn incidents a) = episodes a
  /\ steps a <= steps (process_all forward learn incidents a)
     <= steps a + Z.of_nat (List.length incidents).
Proof.
  induction incidents as [|[env data] rest IH]; intros a;
    [cbn [process_all List.length]; lia|].
  cbn [process_all]. cbn [List.length].
  destruct (IH (snd (process forward learn env data a))) as (-> & Hs).
  destruct (process_effect forward learn env data a) as (_ & _ & Hst & _).
  destruct (process_shape forward learn env data a)
    as [[(_&_&_&_&_&_&He&_) _]|(exp & a1 & H1 & H2)].
  - split; [exact He|]. destruct Hst as [Hst|Hst]; rewrite Hst in Hs; lia.
  - split; [|destruct Hst as [Hst|Hst]; rewrite Hst in Hs; lia].
    cbv zeta in H2. destruct H2 as (_ & _ & _ & _ & -> & _).
    destruct (after_training_memory env a1) as (_ & _ & ->).
    now destruct H1 as (_&_&_&_&_&_&He&_).
Qed.

(** X8: the step counter counts calls of [process], not training steps:
    it never decreases and grows by at most one per incident, and by
    exactly one over a call that returns; the episode counter is never
    written, so an agent reports the episode count it started with (0 for
    a new one) for ever. *)
Theorem counters_over_a_run incidents (p0 : Params) (o0 : Optim) env data a :
  episodes (process_all forward learn incidents a) = episodes a
  /\ episodes (process_all forward learn incidents (new_agent p0 o0)) = 0
  /\ steps a <= steps (process_all forward learn incidents a)
     <= steps a + Z.of_nat (List.length incidents)
  /\ match fst (process forward learn env data a) with
     | Ok response =>
         steps (snd (process forward learn env data a)) = steps a + 1
         /\ m_total_steps (r_metrics response) = steps a + 1
         /\ m_total_episodes (r_metrics response) = episodes a
     | Raise _ => True
     end.
Proof.
  destruct (process_all_counters incidents a) as (He & Hs).
  split; [exact He|]. split; [apply process_all_counters|]. split; [exact Hs|].
  destruct (process_run env data a) as (-> & _ & _ & _ & _ & -> & _).
  pose proof (process_body_run env data a) as H. cbv zeta in H.
  destruct (py_get data "incident_id" VNone); [|now destruct H as [-> _]].
  destruct (FloatTensor (fst (_extract_state data))) as [t|];
    [|now destruct H as [-> _]].
  destruct (fst (_select_action forward env t a)) as [idx|];
    [|now destruct H as [-> _]].
  destruct (actions_getitem idx) as [action|]; [|now destruct H as [-> _]].
  destruct H as (a1 & H1 & _ & _ & _ & _ & Hep & Hst & ->).
  destruct (after_training_memory env a1) as (_ & Hs1 & Hep1).
  destruct H1 as (_ & _ & _ & _ & _ & Hsa & Hepa & _). simpl in Hsa, Hepa.
  destruct (torch_max_dim _); [|exact I].
  destruct (db_call env "update_analysis_result"); [|exact I].
  cbn [r_metrics m_total_steps m_total_episodes].
  rewrite Hst, Hep, Hs1, Hep1, Hsa, Hepa. auto.
Qed.

(** The experiences a training step can turn into a batch. *)
Lemma usable_append d e :
  Forall usable d -> usable e -> Forall usable (deque_append memory_size d e).
Proof.
  intros Hd He. unfold deque_append.
  destruct (memory_size =? 0); [exact Hd|].
  destruct (Z.of_nat (List.length d) <? memory_size).
  - apply Forall_app. split; [exact Hd|]. now constructor.
  - apply Forall_app. split; [|now constructor].
    destruct d; [constructor|]. now inversion Hd.
Qed.

Lemma actions_getitem_key i action :
  actions_getitem i = Ok action -> 0 <= i < action_size.
Proof.
  unfold actions_getitem, actions, action_size. cbn [assocZ].
  destruct (Z.eqb_spec i 0); [lia|].
  destruct (Z.eqb_spec i 1); [lia|].
  destruct (Z.eqb_spec i 2); [lia|].
  destruct (Z.eqb_spec i 3); [lia|].
  destruct (Z.eqb_spec i 4); [lia|discriminate].
Qed.

Lemma process_all_usable incidents :
  forall a,
  Forall usable (memory a) ->
  Forall usable (memory (process_all forward learn incidents a)).
Proof.
  induction incidents as [|[env data] rest IH]; intros a Ha; [exact Ha|].
  cbn [process_all]. apply IH.
  destruct (process_memory env data a)
    as [->|(idx & action & t & Hact & Ht & ->)]; [exact Ha|].
  apply usable_append; [exact Ha|].
  unfold usable, stored_experience.
  cbn [exp_state exp_action exp_next_state].
  split; [apply extract_state_length|].
  split; [now rewrite Ht|].
  split; [now apply actions_getitem_key with action|reflexivity].
Qed.

Lemma FloatTensor2_usable (field : Experience -> list value) batch :
  Forall (fun e => is_ok (FloatTensor (field e)) = true) batch ->
  exists rows,
    FloatTensor2 (map field batch) = Ok rows
    /\ List.length rows = List.length batch.
Proof.
  unfold FloatTensor2.
  induction 1 as [|e batch He _ (rows & IH & Hlen)]; [now exists []|].
  cbn [map res_map].
  destruct (FloatTensor (field e)) as [row|]; [|discriminate].
  rewrite IH. exists (row :: rows). split; [reflexivity|]. simpl. now rewrite Hlen.
Qed.

(** X9: every experience in the replay memory of an agent can be turned
    into a batch row: its state has [state_size] entries and is accepted
    by [torch.FloatTensor], as is its next state, and its action is a key
    of [self.actions] ([process] stores an experience only after the
    state became a tensor and the action was looked up).  So when
    [random.sample] draws from the memory, building the batch of a
    training step cannot fail: the step is the forward and backward pass
    on tensors with one row per sampled experience. *)
Theorem memory_feeds_training incidents (p0 : Params) (o0 : Optim) env :
  let a := process_all forward learn incidents (new_agent p0 o0) in
  let batch := random_sample env (memory a) batch_size in
  Forall usable (memory a)
  /\ (incl batch (memory a) ->
      exists states next_states,
        List.length states = List.length batch
        /\ List.length next_states = List.length batch
        /\ train_batch learn env a
           = learn (policy_net a) (target_net a) (optimizer a)
               states (map exp_action batch) (map exp_reward batch) next_states).
Proof.
  intros a batch.
  assert (Hmem : Forall usable (memory a))
    by (apply process_all_usable; constructor).
  split; [exact Hmem|]. intros Hincl.
  assert (Hbatch : Forall usable batch).
  { apply Forall_forall. intros e He.
    exact (proj1 (Forall_forall _ _) Hmem e (Hincl e He)). }
  destruct (FloatTensor2_usable exp_state batch) as (states & Hs & Hls).
  { eapply Forall_impl; [|exact Hbatch]. now intros e (_ & H & _). }
  destruct (FloatTensor2_usable exp_next_state batch) as (next_states & Hn & Hln).
  { eapply Forall_impl; [|exact Hbatch]. now intros e (_ & _ & _ & H). }
  exists states, next_states.
  split; [exact Hls|]. split; [exact Hln|].
  unfold train_batch. fold a. fold batch. now rewrite Hs, Hn.
Qed.

(** The choice of an action draws from the random generator only. *)
Lemma select_action_draws env env' state a :
  random_random env' = random_random env ->
  random_randrange env' = random_randrange env ->
  _select_action forward env' state a = _select_action forward env state a.
Proof.
  unfold _select_action, bind, get, lift, ret. now intros -> ->.
Qed.

Lemma after_training_draws env env' a1 a1' :
  random_sample env' = random_sample env ->
  learning_state a1' = learning_state a1 ->
  let a2 := after_training learn env a1 in
  let a2' := after_training learn env' a1' in
  policy_net a2' = policy_net a2
  /\ optimizer a2' = optimizer a2
  /\ memory a2' = memory a2
  /\ epsilon a2' = epsilon a2
  /\ steps a2' = steps a2
  /\ episodes a2' = episodes a2.
Proof.
  intros Hrs [= Hp Ht Ho Hm He Hs Hep]. cbv zeta.
  unfold after_training. rewrite Hm.
  destruct (min_experiences <=? _); [|now auto 6].
  rewrite !train_eq. cbn [snd]. rewrite Hm.
  destruct (Z.of_nat (List.length (memory a1)) <? batch_size); [now auto 6|].
  assert (Hb : train_batch learn env' a1' = train_batch learn env a1)
    by (unfold train_batch; now rewrite Hrs, Hp, Ht, Ho, Hm).
  rewrite Hb.
  destruct (train_batch learn env a1) as [po|e]; cbn; rewrite ?He; now auto 6.
Qed.

Lemma same_learning_state a b :
  same_learning a b -> learning_state b = learning_state a.
Proof.
  intros (Hp & Ht & Ho & Hm & He & Hs & Hep & _).
  unfold learning_state. now rewrite Hp, Ht, Ho, Hm, He, Hs, Hep.
Qed.

(** The attributes a call of [process] leaves, all but the log and the
    target network, and what it returns, do not depend on the message
    queue nor on any method of the database but [update_analysis_result]. *)
Lemma process_body_collaborators env env' data a :
  random_random env' = random_random env ->
  random_randrange env' = random_randrange env ->
  random_sample env' = random_sample env ->
  utcnow env' = utcnow env ->
  db_outcome env' "update_analysis_result" = db_outcome env "update_analysis_result" ->
  let out := process_body forward learn env data a in
  let out' := process_body forward learn env' data a in
  fst out' = fst out
  /\ policy_net (snd out') = policy_net (snd out)
  /\ optimizer (snd out') = optimizer (snd out)
  /\ memory (snd out') = memory (snd out)
  /\ epsilon (snd out') = epsilon (snd out)
  /\ steps (snd out') = steps (snd out)
  /\ episodes (snd out') = episodes (snd out).
Proof.
  intros Hrr Hrg Hrs Hut Hdb out out'.
  pose proof (process_body_run env data a) as H.
  pose proof (process_body_run env' data a) as H'.
  cbv zeta in H, H'. fold out in H. fold out' in H'.
  assert (Hfail : forall e,
             fst out = Raise e /\ same_learning a (snd out) ->
             fst out' = Raise e /\ same_learning a (snd out') ->
             fst out' = fst out
             /\ policy_net (snd out') = policy_net (snd out)
             /\ optimizer (snd out') = optimizer (snd out)
             /\ memory (snd out') = memory (snd out)
             /\ epsilon (snd out') = epsilon (snd out)
             /\ steps (snd out') = steps (snd out)
             /\ episodes (snd out') = episodes (snd out)).
  { intros e [Hf Hs] [Hf' Hs'].
    apply same_learning_state in Hs, Hs'.
    rewrite <- Hs in Hs'. injection Hs' as Hp _ Ho Hm He Hst Hep.
    rewrite Hf, Hf'. now auto 8. }
  destruct (py_get data "incident_id" VNone) as [incident_id|e]; [|now apply Hfail with e].
  destruct (FloatTensor (fst (_extract_state data))) as [t|e]; [|now apply Hfail with e].
  rewrite (select_action_draws env env' t a Hrr Hrg) in H'.
  destruct (fst (_select_action forward env t a)) as [idx|e]; [|now apply Hfail with e].
  destruct (actions_getitem idx) as [action|e]; [|now apply Hfail with e].
  clear Hfail.
  destruct H as (a1 & H1 & Hp & Ho & Hm & He & Hep & Hs & Hout).
  destruct H' as (a1' & H1' & Hp' & Ho' & Hm' & He' & Hep' & Hs' & Hout').
  apply same_learning_state in H1, H1'. rewrite <- H1 in H1'.
  destruct (after_training_draws env env' a1 a1' Hrs H1')
    as (Ep & Eo & Em & Ee & Es & Eep).
  assert (Edb : db_call env' "update_analysis_result"
                = db_call env "update_analysis_result")
    by (unfold db_call; cbn; exact Hdb).
  rewrite Hp', Ho', Hm', He', Hs', Hep', Hp, Ho, Hm, He, Hs, Hep.
  rewrite Ep, Eo, Em, Ee, Es, Eep.
  split; [|now auto 8].
  rewrite Hout, Hout', Edb, Hut.
  rewrite Hp', Hm', He', Hs', Hep', Hp, Hm, He, Hs, Hep.
  now rewrite Ep, Em, Ee, Es, Eep.
Qed.

(** X10: the message queue and the methods of the database other than
    [update_analysis_result] have no influence on an incident.  Two calls
    of [process] on the same agent and bag, with the same draws of the
    random generator, the same clock and the same answer to
    [update_analysis_result], return the same response or raise the same
    exception and leave the same networks, optimizer, memory, epsilon and
    counters, whatever [mq.publish] and the other database calls do:
    their failures only reach the log. *)
Theorem process_ignores_collaborators env env' data a :
  random_random env' = random_random env ->
  random_randrange env' = random_randrange env ->
  random_sample env' = random_sample env ->
  utcnow env' = utcnow env ->
  db_outcome env' "update_analysis_result" = db_outcome env "update_analysis_result" ->
  fst (process forward learn env' data a) = fst (process forward learn env data a)
  /\ learning_state (snd (process forward learn env' data a))
     = learning_state (snd (process forward learn env data a)).
Proof.
  intros Hrr Hrg Hrs Hut Hdb.
  destruct (process_body_collaborators env env' data a Hrr Hrg Hrs Hut Hdb)
    as (Ef & Ep & Eo & Em & Ee & Es & Eep).
  destruct (process_run env data a) as (Hf & Hp & Ho & Hm & He & Hs & Hep).
  destruct (process_run env' data a) as (Hf' & Hp' & Ho' & Hm' & He' & Hs' & Hep').
  split; [now rewrite Hf, Hf'|].
  destruct (process_effect forward learn env data a) as (_ & _ & _ & Ht).
  destruct (process_effect forward learn env' data a) as (_ & _ & _ & Ht').
  unfold learning_state.
  rewrite Ht, Ht', Hp, Hp', Ho, Ho', Hm, Hm', He, He', Hs, Hs', Hep, Hep'.
  now rewrite Ep, Eo, Em, Ee, Es, Eep.
Qed.

End Incident.

(* ================================================================= *)
(** ** The life cycle: [start], [stop], [get_status] *)

Section LifecycleFacts.

Context {Params Optim : Type}.
Context (torch_load : value -> res Params).
Context (torch_load_optim : value -> res Optim).

Local Abbreviation BaseAgent := (BaseAgent Params Optim).

Lemma initializations_app l1 l2 :
  initializations (l1 ++ l2) = (initializations l1 + initializations l2)%nat.
Proof.
  unfold initializations. now rewrite filter_app, length_app.
Qed.

(** One call of [initialize] leaves one more record of its kind. *)
Lemma initialize_initializations env (a : Agent Params Optim) :
  initializations (logger (snd (initialize torch_load torch_load_optim env a)))
  = S (initializations (logger a)).
Proof.
  unfold initialize, _load_model_state, try_except, bind, lift, log, modify, ret.
  cbn [db_call Database_methods existsb String.eqb Ascii.eqb Bool.eqb orb fst snd].
  cbn [logger set_logger].
  rewrite !initializations_app. cbn [initializations filter is_initializing].
  unfold initializations. simpl. lia.
Qed.

(** [start] when the agent is not running: [initialize] is awaited unless
    it already was, and both flags are set. *)
Lemma start_when_stopped env (b : BaseAgent) :
  _running b = false ->
  fst (start torch_load torch_load_optim env b) = Ok tt
  /\ _running (snd (start torch_load torch_load_optim env b)) = true
  /\ _initialized (snd (start torch_load torch_load_optim env b)) = true
  /\ same_learning (self b) (self (snd (start torch_load torch_load_optim env b)))
  /\ initializations (logger (self (snd (start torch_load torch_load_optim env b))))
     = (initializations (logger (self b))
        + (if _initialized b then 0 else 1))%nat.
Proof.
  intros Hr. unfold start. rewrite Hr.
  destruct (_initialized b) eqn:Hi; cbn [negb].
  - cbn [fst snd _running _initialized self logger set_logger].
    split; [reflexivity|]. split; [reflexivity|]. split; [reflexivity|]. split.
    + apply same_learning_log.
    + rewrite initializations_app. unfold initializations. simpl. lia.
  - destruct (initialize_ok torch_load torch_load_optim env (self b)) as [Hok Hsame].
    pose proof (initialize_initializations env (self b)) as Hn.
    destruct (initialize torch_load torch_load_optim env (self b)) as [r a'].
    cbn [fst snd] in Hok, Hsame, Hn. subst r.
    cbn [fst snd _running _initialized self logger set_logger].
    split; [reflexivity|]. split; [reflexivity|]. split; [reflexivity|]. split.
    + eapply same_learning_trans; [exact Hsame|apply same_learning_log].
    + rewrite initializations_app, Hn. unfold initializations. simpl. lia.
Qed.

Lemma start_when_running env (b : BaseAgent) :
  _running b = true -> start torch_load torch_load_optim env b = (Ok tt, b).
Proof.
  intros Hr. unfold start. now rewrite Hr.
Qed.

(** An agent that was initialized stays so, and [initialize] is not
    awaited again, whatever the host asks for. *)
Lemma run_commands_initialized cmds :
  forall b : BaseAgent,
    _initialized b = true ->
    _initialized (run_commands torch_load torch_load_optim cmds b) = true
    /\ same_learning (self b) (self (run_commands torch_load torch_load_optim cmds b))
    /\ initializations (logger (self (run_commands torch_load torch_load_optim cmds b)))
       = initializations (logger (self b)).
Proof.
  induction cmds as [|c cmds IH]; intros b Hi.
  - split; [exact Hi|]. split; [apply same_learning_refl|reflexivity].
  - destruct c as [env|]; cbn [run_commands].
    + destruct (_running b) eqn:Hr.
      * rewrite (start_when_running env b Hr). cbn [snd]. now apply IH.
      * destruct (start_when_stopped env b Hr) as (_ & _ & Hi' & Hsame & Hn).
        rewrite Hi in Hn.
        destruct (IH _ Hi') as (H1 & H2 & H3).
        split; [exact H1|]. split; [|lia].
        eapply same_learning_trans; eassumption.
    + destruct (IH (snd (stop b)) Hi) as (H1 & H2 & H3).
      split; [exact H1|]. split.
      * eapply same_learning_trans; [|exact H2]. apply same_learning_log.
      * rewrite H3. cbn [stop snd self logger set_logger].
        rewrite initializations_app. unfold initializations. simpl. lia.
Qed.

(** X11: an agent that is not running is started without an exception;
    from then on, whatever sequence of [start] and [stop] follows, it is
    initialized, [initialize] has been awaited exactly once if it had not
    been before and not at all otherwise, and the networks, the optimizer,
    the memory, epsilon and the counters are the ones it had. *)
Theorem start_initializes_once env cmds (b : BaseAgent) :
  _running b = false ->
  fst (start torch_load torch_load_optim env b) = Ok tt
  /\ (let b' := run_commands torch_load torch_load_optim (Start env :: cmds) b in
      _initialized b' = true
      /\ same_learning (self b) (self b')
      /\ initializations (logger (self b'))
         = (initializations (logger (self b))
            + (if _initialized b then 0 else 1))%nat).
Proof.
  intros Hr.
  destruct (start_when_stopped env b Hr) as (Hok & _ & Hi & Hsame & Hn).
  split; [exact Hok|].
  cbn [run_commands].
  destruct (run_commands_initialized cmds _ Hi) as (H1 & H2 & H3).
  split; [exact H1|]. split; [|lia].
  eapply same_learning_trans; eassumption.
Qed.

(** X12: [start] never raises for this agent and leaves it running; a
    second [start] changes nothing, not even the log; [stop] keeps the
    initialized flag, so that the status after [start] then [stop] is
    not running and initialized. *)
Theorem start_is_idempotent env env' (b : BaseAgent) :
  let b1 := snd (start torch_load torch_load_optim env b) in
  fst (start torch_load torch_load_optim env b) = Ok tt
  /\ _running b1 = true
  /\ start torch_load torch_load_optim env' b1 = (Ok tt, b1)
  /\ (_running b = false ->
      get_status (snd (stop b1)) = (agent_id, false, true)).
Proof.
  cbn zeta. destruct (_running b) eqn:Hr.
  - rewrite (start_when_running env b Hr). cbn [fst snd].
    repeat split; [exact Hr|now apply start_when_running|discriminate].
  - destruct (start_when_stopped env b Hr) as (Hok & Hrun & Hi & _).
    repeat split; [exact Hok|exact Hrun|now apply start_when_running|].
    intros _. unfold get_status. cbn [stop snd _running _initialized].
    now rewrite Hi.
Qed.

(** X13: the two calls that frame the life of the agent never raise and
    never touch what the agent has learned.  [initialize] asks the
    database for [get_model_state] and [cleanup] for [save_model_state];
    class [Database] defines neither, the AttributeError is caught and
    logged, and the networks, the optimizer, the memory, epsilon and the
    counters stay as they were: nothing is restored and nothing is
    saved, for every agent and every answer of the service. *)
Theorem checkpoint_calls_keep_state env (a : Agent Params Optim) :
  fst (initialize torch_load torch_load_optim env a) = Ok tt
  /\ learning_state (snd (initialize torch_load torch_load_optim env a)) = learning_state a
  /\ fst (cleanup env a) = Ok tt
  /\ learning_state (snd (cleanup env a)) = learning_state a
  /\ logger (snd (cleanup env a))
     = logger a
       ++ [LogInfo "Cleaning up Reinforcement Learning Agent";
           LogError "Error saving model state: 'Database' object has no attribute 'save_model_state'"].
Proof.
  destruct (initialize_ok torch_load torch_load_optim env a) as [Hi Hsi].
  destruct (cleanup_ok env a) as [Hc Hsc].
  split; [exact Hi|]. split; [now apply same_learning_state|].
  split; [exact Hc|]. split; [now apply same_learning_state|].
  unfold cleanup, _save_model_state, try_except, bind, lift, log, modify, ret.
  cbn. now rewrite <- app_assoc.
Qed.

End LifecycleFacts.

(* ================================================================= *)
(** ** [Database]: what the three methods return and raise *)

Lemma first_row_list x default rows :
  x_json x = Ok (VList rows) ->
  first_row x default = Ok (hd default rows).
Proof.
  unfold first_row. intros ->. now destruct rows.
Qed.

Lemma first_row_undecodable x default msg :
  x_json x = Raise (JSONDecodeError msg) ->
  first_row x default = Ok default.
Proof.
  unfold first_row. now intros ->.
Qed.

(** The handler of the closing [try] lets no IndexError and no
    JSONDecodeError through. *)
Lemma first_row_handler x default e :
  first_row x default = Raise e -> decode_or_index_error e = false.
Proof.
  unfold first_row.
  destruct (test <- x_json x ;;
            if py_truthy test then (rows <- x_json x ;; py_item0 rows)
            else Ok default)%res as [v|e'].
  - discriminate.
  - destruct (decode_or_index_error e') eqn:He; [discriminate|].
    now intros [= <-].
Qed.

(** X14: when the request went through and the response body is a JSON
    list, the three methods of [Database] return its first row, and their
    default for an empty list: an empty dict for the two writers, None
    for the reader.  A body that is no JSON gives the default as well. *)
Theorem database_first_row_or_default (x : Exchange) (data : value) :
  x_sent x = Ok tt ->
  x_status x = Ok tt ->
  (forall rows,
      x_json x = Ok (VList rows) ->
      update_analysis_result x = Ok (hd (VDict []) rows)
      /\ get_analysis_result x = Ok (hd VNone rows)
      /\ (forall id, py_getitem data "incident_id" = Ok id ->
                     insert_phishing_incident data x = Ok (hd (VDict []) rows)))
  /\ (forall msg,
         x_json x = Raise (JSONDecodeError msg) ->
         update_analysis_result x = Ok (VDict [])
         /\ get_analysis_result x = Ok VNone
         /\ (forall id, py_getitem data "incident_id" = Ok id ->
                        insert_phishing_incident data x = Ok (VDict []))).
Proof.
  intros Hs Hst.
  unfold update_analysis_result, get_analysis_result, insert_phishing_incident.
  rewrite Hs, Hst. cbn [res_bind].
  split.
  - intros rows Hj. rewrite !(first_row_list x _ rows Hj).
    split; [reflexivity|]. split; [reflexivity|].
    now intros id ->.
  - intros msg Hj. rewrite !(first_row_undecodable x _ msg Hj).
    split; [reflexivity|]. split; [reflexivity|].
    now intros id ->.
Qed.

(** X15: the handlers of the three methods cover the decoding of the
    response only.  An IndexError or a JSONDecodeError that leaves one of
    them was raised by the request itself or by [raise_for_status], never
    by reading the body; and a body that is a JSON object with at least
    one member is not handled at all: indexing it raises KeyError, which
    leaves the method. *)
Theorem database_handlers_cover_decoding_only (x : Exchange) :
  (forall e,
      decode_or_index_error e = true ->
      (update_analysis_result x = Raise e \/ get_analysis_result x = Raise e) ->
      x_sent x = Raise e \/ x_status x = Raise e)
  /\ (forall kv members,
         x_sent x = Ok tt ->
         x_status x = Ok tt ->
         x_json x = Ok (VDict (kv :: members)) ->
         update_analysis_result x = Raise (KeyError "0")
         /\ get_analysis_result x = Raise (KeyError "0")).
Proof.
  split.
  - intros e He.
    unfold update_analysis_result, get_analysis_result.
    destruct (x_sent x) as [[]|e1]; cbn [res_bind].
    + destruct (x_status x) as [[]|e2]; cbn [res_bind].
      * intros [H|H]; apply first_row_handler in H; congruence.
      * intros [[= ->]|[= ->]]; now right.
    + intros [[= ->]|[= ->]]; now left.
  - intros kv members Hs Hst Hj.
    unfold update_analysis_result, get_analysis_result, first_row.
    rewrite Hs, Hst, Hj. split; reflexivity.
Qed.

(* ================================================================= *)
(** ** The network: shapes *)

Section NetworkFacts.

Context (affine : list float -> float -> list float -> float).
Context (relu : float -> float).

Lemma Linear_forward_shape l n_in n_out x :
  Linear_shape l n_in n_out ->
  (List.length x = n_in ->
   exists y, Linear_forward affine l x = Ok y /\ List.length y = n_out)
  /\ (List.length x <> n_in -> exists e, Linear_forward affine l x = Raise e).
Proof.
  intros (Hin & Hw & Hb). unfold Linear_forward. rewrite Hin. split; intros Hx.
  - rewrite (proj2 (Nat.eqb_eq _ _) Hx). eexists; split; [reflexivity|].
    rewrite length_map, length_combine. lia.
  - rewrite (proj2 (Nat.eqb_neq _ _) Hx). eexists; reflexivity.
Qed.

Lemma DQN_forward_row (net : DQN) (x : list float) :
  DQN_shape net ->
  List.length x = Z.to_nat state_size ->
  exists q, DQN_forward affine relu net x = Ok q
            /\ List.length q = Z.to_nat action_size.
Proof.
  intros (H1 & H2 & H3) Hx. unfold DQN_forward.
  destruct (proj1 (Linear_forward_shape _ _ _ x H1) Hx) as (h1 & -> & Hl1).
  cbn [res_bind].
  destruct (proj1 (Linear_forward_shape _ _ _ (map relu h1) H2)) as (h2 & -> & Hl2);
    [now rewrite length_map|].
  cbn [res_bind].
  apply (Linear_forward_shape _ _ _ (map relu h2) H3).
  now rewrite length_map.
Qed.

(** X16: a network with the layers [DQN(state_size, action_size)] builds
    maps a row of [state_size] entries to a row of [action_size] action
    values, and refuses a row of any other length. *)
Theorem DQN_forward_shape (net : DQN) (x : list float) :
  DQN_shape net ->
  (List.length x = Z.to_nat state_size ->
   exists q, DQN_forward affine relu net x = Ok q
             /\ List.length q = Z.to_nat action_size)
  /\ (List.length x <> Z.to_nat state_size ->
      exists e, DQN_forward affine relu net x = Raise e).
Proof.
  intros Hnet. split; [now apply DQN_forward_row|].
  destruct Hnet as (H1 & _). intros Hx. unfold DQN_forward.
  destruct (proj2 (Linear_forward_shape _ _ _ x H1) Hx) as (e & ->).
  eexists; reflexivity.
Qed.

(** X17: the stages of a greedy choice compose.  Every state vector
    [_extract_state] returns, once a tensor, is accepted by a network of
    the constructor's shape; the row of action values has a maximum, and
    the index of the maximum is a key of [self.actions]. *)
Theorem extracted_state_has_an_action (net : DQN) (data : value) state_tensor :
  DQN_shape net ->
  FloatTensor (fst (_extract_state data)) = Ok state_tensor ->
  exists q m action,
    DQN_forward affine relu net state_tensor = Ok q
    /\ torch_max_dim q = Ok m
    /\ actions_getitem (Z.of_nat (snd m)) = Ok action
    /\ In action action_names.
Proof.
  intros Hnet Ht.
  assert (Hlen : List.length state_tensor = Z.to_nat state_size).
  { unfold FloatTensor in Ht. rewrite (res_map_length _ _ _ Ht).
    apply extract_state_length. }
  destruct (DQN_forward_row net state_tensor Hnet Hlen) as (q & Hq & Hlq).
  destruct q as [|v row]; [discriminate|].
  pose proof (torch_max_index (v :: row)) as Hidx.
  assert (Hr : 0 <= Z.of_nat (snd (torch_max (v :: row))) < action_size).
  { rewrite Hlq in Hidx. unfold action_size in *.
    assert (v :: row <> []) as Hne by discriminate.
    specialize (Hidx Hne). lia. }
  exists (v :: row), (torch_max (v :: row)).
  unfold action_size in Hr.
  assert (Z.of_nat (snd (torch_max (v :: row))) = 0
          \/ Z.of_nat (snd (torch_max (v :: row))) = 1
          \/ Z.of_nat (snd (torch_max (v :: row))) = 2
          \/ Z.of_nat (snd (torch_max (v :: row))) = 3
          \/ Z.of_nat (snd (torch_max (v :: row))) = 4)
    as [E|[E|[E|[E|E]]]] by lia;
    rewrite E; eexists; (split; [exact Hq|]); (split; [reflexivity|]);
    (split; [reflexivity|]); simpl; tauto.
Qed.

End NetworkFacts.

(* ================================================================= *)
(** ** Closed instances of the further properties *)

Lemma process_outcome_witness :
  let out := process row_forward row_learn (calm_env 0.5%float 3)
               bag_null_history row_agent in
  List.length (policy_net (snd out)) = 5%nat
  /\ exists response,
       fst out = Ok response
       /\ r_reward response = (-1.0)%float
       /\ m_total_steps (r_metrics response) = 1.
Proof.
  cbv zeta.
  pose proof (process_outcome row_forward row_learn
                (fun p => List.length p = 5%nat)
                (calm_env 0.5%float 3) bag_null_history row_agent) as H.
  cbv zeta in H.
  destruct H as [Hs Hm].
  - intros p t Hp _. exact Hp.
  - intros p t o ss acts rs ns po Hp [= <-]. cbn [fst].
    now rewrite length_map.
  - reflexivity.
  - unfold action_size. simpl. lia.
  - split; [exact Hs|].
    change (py_get bag_null_history "incident_id" VNone) with (Ok VNone) in Hm.
    change (db_call (calm_env 0.5%float 3) "update_analysis_result")
      with (Ok (VDict [])) in Hm.
    destruct (FloatTensor (fst (_extract_state bag_null_history))) eqn:E;
      [|vm_compute in E; discriminate E].
    destruct Hm as (response & idx & Hout & _ & _ & Hr & Hst & _).
    exists response. split; [exact Hout|]. split; [exact Hr|exact Hst].
Defined.

Lemma epsilon_never_below_floor_witness :
  PrimFloat.leb epsilon_min (epsilon trained_agent) = true
  /\ PrimFloat.leb epsilon_min
       (epsilon (process_all row_forward row_learn
                   [(calm_env 0.5%float 3, VDict []);
                    (store_down_env, bag_null_history)] trained_agent)) = true.
Proof.
  split; [reflexivity|].
  apply (proj2 (epsilon_never_below_floor row_forward row_learn
                  [(calm_env 0.5%float 3, VDict []);
                   (store_down_env, bag_null_history)]
                  [0.0]%float tt trained_agent)).
  reflexivity.
Defined.

Lemma new_agent_explores_only_witness :
  fst (_select_action row_forward (calm_env 0.5%float 3) zero_state
         (process_all row_forward row_learn
            [(calm_env 0.5%float 3, VDict []);
             (calm_env 0.25%float 0, bag_null_history)]
            (new_agent [0.1; 0.5; 0.2; 0.0; 0.3]%float tt)))
  = Ok 3.
Proof.
  apply (new_agent_explores_only row_forward row_learn
           [(calm_env 0.5%float 3, VDict []);
            (calm_env 0.25%float 0, bag_null_history)]
           [0.1; 0.5; 0.2; 0.0; 0.3]%float tt (calm_env 0.5%float 3) zero_state).
  - reflexivity.
  - reflexivity.
Defined.

Lemma process_ignores_collaborators_witness :
  fst (process row_forward row_learn (queue_down_env 0.5%float 3)
         bag_null_history row_agent)
  = fst (process row_forward row_learn (calm_env 0.5%float 3)
           bag_null_history row_agent)
  /\ learning_state (snd (process row_forward row_learn (queue_down_env 0.5%float 3)
                            bag_null_history row_agent))
     = learning_state (snd (process row_forward row_learn (calm_env 0.5%float 3)
                              bag_null_history row_agent)).
Proof.
  apply (process_ignores_collaborators row_forward row_learn
           (calm_env 0.5%float 3) (queue_down_env 0.5%float 3)
           bag_null_history row_agent); reflexivity.
Defined.

Lemma start_initializes_once_witness :
  let b := new_base [0.1; 0.5; 0.2; 0.0; 0.3]%float tt in
  let env := calm_env 0.5%float 3 in
  let b' := run_commands row_load row_load_optim
              [Start env; Stop; Start store_down_env; Start env; Stop] b in
  _running b = false
  /\ fst (start row_load row_load_optim env b) = Ok tt
  /\ get_status b' = (agent_id, false, true)
  /\ initializations (logger (self b')) = 1%nat.
Proof.
  cbv zeta. split; [reflexivity|].
  destruct (start_initializes_once row_load row_load_optim (calm_env 0.5%float 3)
              [Stop; Start store_down_env; Start (calm_env 0.5%float 3); Stop]
              (new_base [0.1; 0.5; 0.2; 0.0; 0.3]%float tt) eq_refl)
    as (Hok & Hi & _ & Hn).
  split; [exact Hok|]. split; [reflexivity|exact Hn].
Defined.

Lemma start_is_idempotent_witness :
  let b := new_base [0.1; 0.5; 0.2; 0.0; 0.3]%float tt in
  let b1 := snd (start row_load row_load_optim (calm_env 0.5%float 3) b) in
  start row_load row_load_optim store_down_env b1 = (Ok tt, b1)
  /\ get_status (snd (stop b1)) = (agent_id, false, true).
Proof.
  cbv zeta.
  destruct (start_is_idempotent row_load row_load_optim (calm_env 0.5%float 3)
              store_down_env (new_base [0.1; 0.5; 0.2; 0.0; 0.3]%float tt))
    as (_ & _ & H2 & H3).
  split; [exact H2|]. apply H3. reflexivity.
Defined.

Lemma database_first_row_or_default_witness :
  update_analysis_result one_row_exchange
  = Ok (VDict [("incident_id", VStr "inc-1")])
  /\ get_analysis_result one_row_exchange
     = Ok (VDict [("incident_id", VStr "inc-1")])
  /\ insert_phishing_incident (test_payload (VStr "inc-1") (VDict [])) one_row_exchange
     = Ok (VDict [("incident_id", VStr "inc-1")]).
Proof.
  destruct (database_first_row_or_default one_row_exchange
              (test_payload (VStr "inc-1") (VDict [])) eq_refl eq_refl)
    as [H _].
  destruct (H [VDict [("incident_id", VStr "inc-1")]] eq_refl) as (H1 & H2 & H3).
  split; [exact H1|]. split; [exact H2|].
  exact (H3 (VStr "inc-1") eq_refl).
Defined.

Lemma database_handlers_cover_decoding_only_witness :
  let x := mkExchange (Ok tt) (Ok tt)
             (Ok (VDict [("message", VStr "permission denied")])) in
  update_analysis_result x = Raise (KeyError "0")
  /\ get_analysis_result x = Raise (KeyError "0").
Proof.
  cbv zeta.
  exact (proj2 (database_handlers_cover_decoding_only
                  (mkExchange (Ok tt) (Ok tt)
                     (Ok (VDict [("message", VStr "permission denied")]))))
               ("message", VStr "permission denied") [] eq_refl eq_refl eq_refl).
Defined.

Lemma DQN_forward_shape_witness :
  (exists q, DQN_forward dot_affine relu_entry constant_net zero_state = Ok q
             /\ List.length q = Z.to_nat action_size)
  /\ (exists e, DQN_forward dot_affine relu_entry constant_net [1.0; 2.0]%float
                = Raise e).
Proof.
  assert (Hshape : DQN_shape constant_net) by (repeat split).
  destruct (DQN_forward_shape dot_affine relu_entry constant_net zero_state
              Hshape) as [H _].
  destruct (DQN_forward_shape dot_affine relu_entry constant_net [1.0; 2.0]%float
              Hshape) as [_ H'].
  split; [apply H; reflexivity|apply H'; discriminate].
Defined.

Lemma extracted_state_has_an_action_witness :
  exists q m action,
    DQN_forward dot_affine relu_entry constant_net zero_state = Ok q
    /\ torch_max_dim q = Ok m
    /\ actions_getitem (Z.of_nat (snd m)) = Ok action
    /\ In action action_names.
Proof.
  apply (extracted_state_has_an_action dot_affine relu_entry constant_net
           bag_null_history zero_state).
  - repeat split.
  - vm_compute. reflexivity.
Defined.

Lemma memory_feeds_training_witness :
  let incidents := [(calm_env 0.5%float 3, VDict []);
                    (calm_env 0.25%float 0, bag_null_history)] in
  let a := process_all row_forward row_learn incidents row_agent in
  let batch := random_sample (calm_env 0.5%float 3) (memory a) batch_size in
  incl batch (memory a)
  /\ exists states next_states,
       List.length states = List.length batch
       /\ List.length next_states = List.length batch
       /\ train_batch row_learn (calm_env 0.5%float 3) a
          = row_learn (policy_net a) (target_net a) (optimizer a)
              states (map exp_action batch) (map exp_reward batch) next_states.
Proof.
  cbv zeta.
  assert (Hincl : incl (random_sample (calm_env 0.5%float 3)
                          (memory (process_all row_forward row_learn
                                     [(calm_env 0.5%float 3, VDict []);
                                      (calm_env 0.25%float 0, bag_null_history)]
                                     row_agent)) batch_size)
                       (memory (process_all row_forward row_learn
                                  [(calm_env 0.5%float 3, VDict []);
                                   (calm_env 0.25%float 0, bag_null_history)]
                                  row_agent))).
  { intros e He. vm_compute in He. vm_compute. exact He. }
  split; [exact Hincl|].
  exact (proj2 (memory_feeds_training row_forward row_learn
                  [(calm_env 0.5%float 3, VDict []);
                   (calm_env 0.25%float 0, bag_null_history)]
                  [0.1; 0.5; 0.2; 0.0; 0.3]%float tt (calm_env 0.5%float 3))
               Hincl).
Defined.

Lemma checkpoint_calls_keep_state_witness :
  learning_state (snd (initialize row_load row_load_optim store_down_env trained_agent))
  = learning_state trained_agent
  /\ learning_state (snd (cleanup (calm_env 0.5%float 3) trained_agent))
     = learning_state trained_agent.
Proof.
  destruct (checkpoint_calls_keep_state row_load row_load_optim store_down_env
              trained_agent) as (_ & H1 & _).
  destruct (checkpoint_calls_keep_state row_load row_load_optim
              (calm_env 0.5%float 3) trained_agent) as (_ & _ & _ & H2 & _).
  split; [exact H1|exact H2].
Defined.
